(** * The portfolio backend: a REST layer over three document collections

    Shallow embedding of [src/index.js] (the variant with image upload) and
    of [src/unnamed/part_000] (the earlier variant without it), and the
    properties of the routes stated in the specification.

    The program is glue between four libraries: express (routing and error
    middleware), express-validator (the [validate*] chains), multer (the
    upload middleware) and mongoose (schemas, documents and queries).  The
    handlers are translated from the source line by line.  The libraries
    are modelled as far as the handlers use them; what a library computes
    on strings (trimming, escaping, e-mail syntax, parsing of numbers and
    dates, message texts of its own errors) and what differs between its
    versions is a field of [Library], so every general theorem holds for
    each behaviour of those functions and for each version. *)

From stdpp Require Import gmap strings list fin_maps sorting pretty.
From Stdlib Require Import ZArith Lia.

#[local] Open Scope Z_scope.
#[local] Set Warnings "-register-all".

(** ** JavaScript values *)

(** Values that reach the validators and the model constructors: what
    [express.json()] or multer puts into [req.body] (null, booleans,
    numbers, strings, arrays, objects) and what the handlers add to it
    (a [Date] for [new Date()], and [NaN] for [undefined + 1]).  Numbers
    are the integers among JavaScript's numbers, which are doubles: see
    [to_double] for their arithmetic. *)
Inductive jsval :=
| JNull
| JBool (b : bool)
| JNum (n : Z)
| JNaN
| JStr (s : string)
| JDate (t : Z)
| JArr (l : list jsval)
| JObj (o : list (string * jsval)).

(** A request body: a JavaScript object used as a map from field names. *)
Abbreviation body := (gmap string jsval).

(** Values stored in a document.  Every write goes through the cast of a
    schema path, so a document holds, at a path of its schema, a value of
    the path's type or [null].  Dates are milliseconds since the epoch. *)
Inductive value :=
| VNull
| VBool (b : bool)
| VNum (n : Z)
| VStr (s : string)
| VDate (t : Z)
| VOid (s : string)
| VStrs (l : list string)
| VMixed (j : jsval).

(** A stored document: field name to value, [_id] included. *)
Abbreviation doc := (gmap string value).

(** ** Errors *)

Inductive MulterCode := LIMIT_FILE_SIZE | LIMIT_UNEXPECTED_FILE.

Inductive Err :=
| JsError (m : string)           (* [new Error(m)] raised by the source *)
| DriverError (m : string)       (* a database call rejected *)
| NextNotDefined                 (* ReferenceError: call of an unbound [next] *)
| FileUndefined                  (* TypeError: [req.file.filename], no file *)
| MulterError (c : MulterCode)
| CastError (path : string)
| ValidationError (paths : list string)
| DuplicateKey
| ImmutableField
| OperatorError (m : string).

(** ** What is left to the libraries *)

Inductive SchemaType :=
| TString | TNumber | TDate | TBoolean | TObject | TStringArray | TObjectId.

Record Library := {
  (* validator.js, used by express-validator *)
  str_escape : string -> string;
  is_email : string -> bool;
  normalize_email : string -> jsval;
  is_numeric : string -> bool;
  date_iso : Z -> string;
  (* JavaScript strings *)
  str_trim : string -> string;
  str_lower : string -> string;
  (* mongoose: conversion of a value that is not yet of the path's type
     (numeric strings, date strings, "yes"/"no", 24-digit hexadecimal
     identifiers, ...); [None] is a CastError *)
  convert : SchemaType -> jsval -> option value;
  (* mongoose and MongoDB: update operators ([$set], [$unset], [$inc], ...)
     and dotted paths in an update document *)
  update_operators : body -> doc -> Err + doc;
  (* busboy, under multer: a file whose size is the limit exactly is
     refused by busboy 1 and accepted by busboy 0 *)
  refuses_at_limit : bool;
  (* message texts of the libraries' and the engine's own errors *)
  lib_message : Err -> string;
  (* express 5 forwards a rejected handler promise to the error
     middleware, express 4 does not *)
  express5 : bool
}.

(** [err.message]. *)
Definition message (L : Library) (e : Err) : string :=
  match e with
  | JsError m => m
  | DriverError m => m
  | NextNotDefined => "next is not defined"
  | MulterError LIMIT_FILE_SIZE => "File too large"
  | MulterError LIMIT_UNEXPECTED_FILE => "Unexpected field"
  | _ => lib_message L e
  end.

(** ** express-validator *)

(** [toString] of express-validator: the text a standard validator or
    sanitizer works on.  [None] is [undefined]. *)
Fixpoint toStr (L : Library) (j : jsval) : string :=
  match j with
  | JNull => ""
  | JBool b => if b then "true" else "false"
  | JNum n => pretty n
  | JNaN => ""
  | JStr s => s
  | JDate t => date_iso L t
  | JArr l => String.concat "," (map (toStr L) l)
  | JObj _ => "[object Object]"
  end.

Definition toStr_opt (L : Library) (v : option jsval) : string :=
  match v with Some j => toStr L j | None => "" end.

Inductive ChainItem :=
| NotEmpty | IsEmail | IsNumeric        (* standard validators *)
| IsObject | IsArray                    (* validators of the whole value *)
| Trim | Escape | NormalizeEmail.       (* sanitizers *)

Record Chain := {
  field : string;
  is_optional : bool;
  items : list ChainItem
}.

(** The values a standard validator visits: the elements of an array
    (express-validator 6 and later), else the value itself. *)
Definition visited (v : option jsval) : list (option jsval) :=
  match v with
  | Some (JArr l) => map Some l
  | _ => [v]
  end.

Definition standard (L : Library) (it : ChainItem) (s : string) : bool :=
  match it with
  | NotEmpty => negb (String.eqb s "")
  | IsEmail => is_email L s
  | IsNumeric => is_numeric L s
  | _ => true
  end.

Definition sanitizer (L : Library) (it : ChainItem) (s : string) : jsval :=
  match it with
  | Trim => JStr (str_trim L s)
  | Escape => JStr (str_escape L s)
  | NormalizeEmail => normalize_email L s
  | _ => JStr s
  end.

(** One item of a chain on the current value: the number of errors it
    adds and the value it leaves. *)
Definition run_item (L : Library) (it : ChainItem) (v : option jsval)
  : nat * option jsval :=
  match it with
  | NotEmpty | IsEmail | IsNumeric =>
      (length (filter (fun x => standard L it (toStr_opt L x) = false) (visited v)), v)
  | IsObject =>
      (match v with Some (JObj _) => 0%nat | _ => 1%nat end, v)
  | IsArray =>
      (match v with Some (JArr _) => 0%nat | _ => 1%nat end, v)
  | Trim | Escape | NormalizeEmail =>
      (0%nat, Some (match v with
                    | Some (JArr l) => JArr (map (fun x => sanitizer L it (toStr L x)) l)
                    | _ => sanitizer L it (toStr_opt L v)
                    end))
  end.

Fixpoint run_items (L : Library) (its : list ChainItem) (v : option jsval)
  : nat * option jsval :=
  match its with
  | [] => (0%nat, v)
  | it :: rest =>
      let '(n, v1) := run_item L it v in
      let '(m, v2) := run_items L rest v1 in
      ((n + m)%nat, v2)
  end.

(** A chain on the request: an optional chain skips an undefined field;
    the errors carry the field's name; the sanitized value is written
    back into [req.body]. *)
Definition run_chain (L : Library) (c : Chain) (b : body) : list string * body :=
  match b !! field c, is_optional c with
  | None, true => ([], b)
  | v, _ =>
      let '(n, v') := run_items L (items c) v in
      (replicate n (field c),
       match v' with Some j => <[field c := j]> b | None => b end)
  end.

(** [validationResult(req)] after the chains ran in order, with the body
    they leave. *)
Fixpoint validate (L : Library) (cs : list Chain) (b : body) : list string * body :=
  match cs with
  | [] => ([], b)
  | c :: rest =>
      let '(e1, b1) := run_chain L c b in
      let '(e2, b2) := validate L rest b1 in
      (e1 ++ e2, b2)
  end.

(** ** mongoose: schemas, documents, queries *)

Inductive Default :=
| NoDefault
| DefaultNow                 (* [default: Date.now] *)
| DefaultFresh               (* a new ObjectId *)
| DefaultConst (v : value).

Record Path := {
  ptype : SchemaType;
  required : bool;
  trim : bool;
  lowercase : bool;
  default : Default
}.

(** A schema: path name to its definition. *)
Abbreviation Schema := (gmap string Path).

Definition plain (t : SchemaType) : Path :=
  {| ptype := t; required := false; trim := false; lowercase := false;
     default := NoDefault |}.

(** The paths [mongoose.Schema] adds to every schema: the native
    identity [_id] and the version key [__v]. *)
Definition with_native (fields : list (string * Path)) : Schema :=
  list_to_map
    (("_id", {| ptype := TObjectId; required := true; trim := false;
                lowercase := false; default := DefaultFresh |})
     :: ("__v", {| ptype := TNumber; required := false; trim := false;
                   lowercase := false; default := DefaultConst (VNum 0) |})
     :: fields).

(** What a request carries besides its parameters: the clock readings and
    the fresh identifier the handler will obtain, and the database calls
    that will reject ([db_fault i] for the [i]-th call of the request). *)
Record Env := {
  t_upload : Z;                (* [Date.now()] in multer's [filename] *)
  t_now : Z;                   (* [new Date()] in the handler *)
  t_default : Z;               (* [Date.now] of a schema default *)
  fresh_oid : string;
  db_fault : nat -> option string
}.

Inductive result (A : Type) :=
| Ok (a : A)
| Throw (e : Err).
Arguments Ok {A} a.
Arguments Throw {A} e.

#[global] Instance result_bind : MBind result :=
  fun A B (k : A -> result B) (r : result A) =>
    match r with Ok a => k a | Throw e => Throw e end.

(** A database call: the [i]-th of the request. *)
Definition db {A} (env : Env) (i : nat) (r : result A) : result A :=
  match db_fault env i with
  | Some m => Throw (DriverError m)
  | None => r
  end.

Fixpoint all_strings (l : list jsval) : option (list string) :=
  match l with
  | [] => Some []
  | JStr s :: rest => cons s <$> all_strings rest
  | _ :: _ => None
  end.

(** The largest time value of a JavaScript [Date]. *)
Definition max_time : Z := 8640000000000000.

(** A schema type's cast.  [null] stays [null]; a value of the path's own
    type is kept; the rest is the library's conversion. *)
Definition cast (L : Library) (t : SchemaType) (j : jsval) : option value :=
  match t, j with
  | _, JNull => Some VNull
  | TString, JStr s => Some (VStr s)
  | TNumber, JNum n => Some (VNum n)
  | TNumber, JNaN => None
  | TDate, JDate d => Some (VDate d)
  | TDate, JNum n =>
      if bool_decide (- max_time <= n <= max_time) then Some (VDate n) else None
  | TBoolean, JBool b => Some (VBool b)
  | TObject, _ => Some (VMixed j)
  | TStringArray, JArr l =>
      match all_strings l with
      | Some ss => Some (VStrs ss)
      | None => convert L t j
      end
  | _, _ => convert L t j
  end.

(** The [trim] and [lowercase] setters of a String path. *)
Definition setters (L : Library) (p : Path) (v : value) : value :=
  match v with
  | VStr s =>
      let s1 := if trim p then str_trim L s else s in
      VStr (if lowercase p then str_lower L s1 else s1)
  | _ => v
  end.

Definition default_value (env : Env) (p : Path) : option value :=
  match default p with
  | NoDefault => None
  | DefaultNow => Some (VDate (t_default env))
  | DefaultFresh => Some (VOid (fresh_oid env))
  | DefaultConst v => Some v
  end.

(** The value a new document gets at a path of its schema: the default
    where the object has none, else the cast of what it has.  A key that
    is no path of the schema is dropped (strict mode). *)
Definition init_path (L : Library) (env : Env)
    (p : option Path) (o : option jsval) : option value :=
  match p, o with
  | Some p, None => default_value env p
  | Some p, Some j => setters L p <$> cast L (ptype p) j
  | None, _ => None
  end.

(** [new Model(obj)]. *)
Definition new_document (L : Library) (env : Env) (sch : Schema) (obj : body) : doc :=
  merge (init_path L env) sch obj.

Definition cast_fails (L : Library) (p : option Path) (o : option jsval) : option unit :=
  match p, o with
  | Some p, Some j =>
      match cast L (ptype p) j with Some _ => None | None => Some tt end
  | _, _ => None
  end.

Definition missing (p : option Path) (o : option value) : option unit :=
  match p with
  | Some p =>
      if required p then
        match o with
        | None | Some VNull | Some (VStr "") => Some tt
        | Some _ => None
        end
      else None
  | None => None
  end.

(** The paths [validate()] reports before a save: failed casts of the
    constructor and required paths left empty. *)
Definition invalid_paths (L : Library) (sch : Schema) (obj : body) (d : doc)
  : list string :=
  (map_to_list (merge (cast_fails L) sch obj)).*1
  ++ (map_to_list (merge missing sch d)).*1.

Definition same_value (a b : value) : bool :=
  match a, b with
  | VNull, VNull => true
  | VBool x, VBool y => bool_decide (x = y)
  | VNum x, VNum y => x =? y
  | VStr x, VStr y => String.eqb x y
  | VDate x, VDate y => x =? y
  | VOid x, VOid y => String.eqb x y
  | _, _ => false
  end.

(** A query condition [{k: q}] on a document: [null] matches a missing
    field too. *)
Definition matches (k : string) (q : value) (d : doc) : bool :=
  match d !! k, q with
  | None, VNull => true
  | None, _ => false
  | Some v, _ => same_value q v
  end.

Definition same_id (d d' : doc) : bool :=
  match d !! "_id", d' !! "_id" with
  | Some a, Some b => same_value a b
  | _, _ => false
  end.

(** [doc.save()] of a new document: validation, then the insert, which
    the unique index on [_id] may refuse. *)
Definition save (L : Library) (env : Env) (i : nat) (sch : Schema)
    (obj : body) (d : doc) (coll : list doc) : result (list doc) :=
  match invalid_paths L sch obj d with
  | _ :: _ as ps => Throw (ValidationError ps)
  | [] =>
      db env i
        (if existsb (same_id d) coll then Throw DuplicateKey
         else Ok (coll ++ [d]))
  end.

(** *** Sorting *)

(** The key of a sort on a Date or Number path.  A missing or [null]
    field is the smallest key. *)
Definition sort_key (o : option value) : option Z :=
  match o with
  | Some (VDate t) => Some t
  | Some (VNum n) => Some n
  | _ => None
  end.

Definition key_le (a b : option Z) : Prop :=
  match a, b with
  | None, _ => True
  | Some _, None => False
  | Some x, Some y => x <= y
  end.

Definition key_lt (a b : option Z) : Prop :=
  match a, b with
  | _, None => False
  | None, Some _ => True
  | Some x, Some y => x < y
  end.

#[global] Instance key_le_dec a b : Decision (key_le a b).
Proof. destruct a, b; simpl; apply _. Defined.

#[global] Instance key_lt_dec a b : Decision (key_lt a b).
Proof. destruct a, b; simpl; apply _. Defined.

(** [d1] may stand before [d2] in a sort [{k: -1}]. *)
Definition descending (k : string) (d1 d2 : doc) : Prop :=
  key_le (sort_key (d2 !! k)) (sort_key (d1 !! k)).

Definition strictly_descending (k : string) (d1 d2 : doc) : Prop :=
  key_lt (sort_key (d2 !! k)) (sort_key (d1 !! k)).

#[global] Instance descending_dec k d1 d2 : Decision (descending k d1 d2).
Proof. unfold descending; apply _. Defined.

#[global] Instance strictly_descending_dec k d1 d2 :
  Decision (strictly_descending k d1 d2).
Proof. unfold strictly_descending; apply _. Defined.

(** [Model.find().sort({k: -1})]. *)
Definition sort_desc (k : string) (coll : list doc) : list doc :=
  merge_sort (descending k) coll.

(** *** Queries on one document *)

Fixpoint find_one (f : doc -> bool) (coll : list doc) : option doc :=
  match coll with
  | [] => None
  | d :: rest => if f d then Some d else find_one f rest
  end.

Fixpoint replace_first (f : doc -> bool) (d' : doc) (coll : list doc) : list doc :=
  match coll with
  | [] => []
  | d :: rest => if f d then d' :: rest else d :: replace_first f d' rest
  end.

Fixpoint remove_first (f : doc -> bool) (coll : list doc) : list doc :=
  match coll with
  | [] => []
  | d :: rest => if f d then rest else d :: remove_first f rest
  end.

(** A key of an update document that names a top-level field: no
    operator ([$...]) and no dotted path. *)
Definition plain_key (k : string) : bool :=
  negb (String.prefix "$" k)
  && match String.index 0 "." k with Some _ => false | None => true end.

Definition plain_part (upd : body) : body :=
  filter (fun kv => plain_key kv.1 = true) upd.

Definition operator_part (upd : body) : body :=
  filter (fun kv => plain_key kv.1 = false) upd.

Definition set_path (L : Library) (p : option Path) (o : option jsval) : option value :=
  match p, o with
  | Some p, Some j => setters L p <$> cast L (ptype p) j
  | _, _ => None
  end.

(** The [$set] of an update document given as plain fields: each field
    cast by its schema path, fields outside the schema dropped. *)
Definition cast_set (L : Library) (sch : Schema) (upd : body) : result doc :=
  match (map_to_list (merge (cast_fails L) sch (plain_part upd))).*1 with
  | k :: _ => Throw (CastError k)
  | [] => Ok (merge (set_path L) sch (plain_part upd))
  end.

Definition keeps_id (set d : doc) : bool :=
  match set !! "_id", d !! "_id" with
  | None, _ => true
  | Some v, Some w => same_value v w
  | Some _, None => false
  end.

(** The update applied to the matched document: the fields of [$set]
    replace the stored ones, the others stay. *)
Definition apply_update (L : Library) (set : doc) (ops : body) (d : doc) : result doc :=
  if keeps_id set d then
    match map_to_list ops with
    | [] => Ok (set ∪ d)
    | _ :: _ =>
        match update_operators L ops (set ∪ d) with
        | inl e => Throw e
        | inr d' => Ok d'
        end
    end
  else Throw ImmutableField.

Definition cast_query (L : Library) (k : string) (t : SchemaType) (q : string)
  : result value :=
  match cast L t (JStr q) with
  | Some v => Ok v
  | None => Throw (CastError k)
  end.

(** [Model.findOneAndUpdate({k: q}, upd, {new: true})]: the collection
    afterwards and the updated document, [None] when nothing matched. *)
Definition findOneAndUpdate (L : Library) (env : Env) (i : nat) (sch : Schema)
    (k : string) (t : SchemaType) (q : string) (upd : body) (coll : list doc)
  : result (list doc * option doc) :=
  qv ← cast_query L k t q;
  set ← cast_set L sch upd;
  db env i
    (match find_one (matches k qv) coll with
     | None => Ok (coll, None)
     | Some d =>
         d' ← apply_update L set (operator_part upd) d;
         Ok (replace_first (matches k qv) d' coll, Some d')
     end).

(** [Model.findOne({k: q})]. *)
Definition findOne (L : Library) (env : Env) (i : nat)
    (k : string) (t : SchemaType) (q : string) (coll : list doc)
  : result (option doc) :=
  qv ← cast_query L k t q;
  db env i (Ok (find_one (matches k qv) coll)).

(** [Model.findOneAndDelete({k: q})]. *)
Definition findOneAndDelete (L : Library) (env : Env) (i : nat)
    (k : string) (t : SchemaType) (q : string) (coll : list doc)
  : result (list doc * option doc) :=
  qv ← cast_query L k t q;
  db env i (Ok (remove_first (matches k qv) coll, find_one (matches k qv) coll)).

(** The result of a [deleteOne]. *)
Record DeleteResult := {
  acknowledged : bool;
  deletedCount : Z
}.

(** [Model.deleteOne({k: q})].  The connection string asks for write
    concern [w=majority], so every write is acknowledged. *)
Definition deleteOne (L : Library) (env : Env) (i : nat)
    (k : string) (t : SchemaType) (q : string) (coll : list doc)
  : result (list doc * DeleteResult) :=
  qv ← cast_query L k t q;
  db env i
    (Ok (remove_first (matches k qv) coll,
         {| acknowledged := true;
            deletedCount :=
              match find_one (matches k qv) coll with Some _ => 1 | None => 0 end |})).

(** ** The application *)

(** The two source files. *)
Inductive Variant :=
| index_js          (* src/index.js *)
| part_000.         (* src/unnamed/part_000 *)

Definition req_string (tr : bool) : Path :=
  {| ptype := TString; required := true; trim := tr; lowercase := false;
     default := NoDefault |}.

Definition created_at : Path :=
  {| ptype := TDate; required := false; trim := false; lowercase := false;
     default := DefaultNow |}.

Definition email_path : Path :=
  {| ptype := TString; required := true; trim := true; lowercase := true;
     default := NoDefault |}.

Definition ProjectSchema (v : Variant) : Schema :=
  with_native
    ([("id", plain TNumber);
      ("title", req_string true)]
     ++ match v with index_js => [("client", plain TObject)] | part_000 => [] end
     ++ [("category", req_string false);
         ("img", req_string false);
         ("description", plain TString);
         ("technologies",
          {| ptype := TStringArray; required := false; trim := false;
             lowercase := false; default := DefaultConst (VStrs []) |});
         ("createdAt", created_at);
         ("updatedAt", plain TDate)]).

Definition FeedbackSchema (v : Variant) : Schema :=
  with_native
    ([("name", req_string true);
      ("role", req_string true);
      ("company", req_string true);
      ("email", email_path)]
     ++ match v with index_js => [("subject", req_string false)] | part_000 => [] end
     ++ [("message", req_string false);
         ("approved",
          {| ptype := TBoolean; required := false; trim := false;
             lowercase := false; default := DefaultConst (VBool false) |});
         ("createdAt", created_at)]).

Definition HireMeSchema (v : Variant) : Schema :=
  with_native
    ([("name", req_string true);
      ("email", email_path);
      ("company", plain TString)]
     ++ match v with index_js => [("projectType", req_string false)] | part_000 => [] end
     ++ [("projectDescription", req_string false);
         ("budget", plain TNumber);
         ("timeframe", plain TString);
         ("createdAt", created_at)]).

(** [body(f).notEmpty().trim().escape()] and its relatives. *)
Definition text (f : string) : Chain :=
  {| field := f; is_optional := false; items := [NotEmpty; Trim; Escape] |}.

Definition optional_text (f : string) : Chain :=
  {| field := f; is_optional := true; items := [Trim; Escape] |}.

Definition email_chain : Chain :=
  {| field := "email"; is_optional := false; items := [IsEmail; NormalizeEmail] |}.

Definition validateProject (v : Variant) : list Chain :=
  [text "title"; text "category"]
  ++ match v with
     | index_js => [{| field := "client"; is_optional := true; items := [IsObject] |}]
     | part_000 => []
     end
  ++ [{| field := "img"; is_optional := false; items := [NotEmpty] |};
      optional_text "description";
      {| field := "technologies"; is_optional := true; items := [IsArray] |}].

Definition validateFeedback (v : Variant) : list Chain :=
  match v with
  | index_js =>
      [text "name"; text "role"; text "company"; email_chain;
       text "subject"; text "message"]
  | part_000 => [text "name"; email_chain; text "message"]
  end.

Definition validateHireMe (v : Variant) : list Chain :=
  [text "name"; email_chain; optional_text "company"]
  ++ match v with index_js => [text "projectType"] | part_000 => [] end
  ++ [text "projectDescription";
      {| field := "budget"; is_optional := true; items := [IsNumeric] |};
      optional_text "timeframe"].

(** The three collections and the upload directory. *)
Record State := {
  projects : list doc;
  feedbacks : list doc;
  hire_requests : list doc;
  uploads : list string
}.

Definition with_projects (c : list doc) (s : State) : State :=
  {| projects := c; feedbacks := feedbacks s;
     hire_requests := hire_requests s; uploads := uploads s |}.

Definition with_feedbacks (c : list doc) (s : State) : State :=
  {| projects := projects s; feedbacks := c;
     hire_requests := hire_requests s; uploads := uploads s |}.

Definition with_hire_requests (c : list doc) (s : State) : State :=
  {| projects := projects s; feedbacks := feedbacks s;
     hire_requests := c; uploads := uploads s |}.

Definition with_upload (f : string) (s : State) : State :=
  {| projects := projects s; feedbacks := feedbacks s;
     hire_requests := hire_requests s; uploads := uploads s ++ [f] |}.

(** What a handler passes to [res.json]. *)
Inductive Payload :=
| Docs (l : list doc)
| Document (d : doc)
| Message (m : string)                   (* [{ message: m }] *)
| Errors (fields : list string)          (* [{ errors: errors.array() }] *)
| Failure (m : string) (error : string)  (* [{ message: m, error: error }] *)
| Deleted (r : DeleteResult)
| NoRoute.                               (* the page of express for no route *)

Record Response := {
  status : Z;
  payload : Payload
}.

Definition json (st : Z) (p : Payload) : Response :=
  {| status := st; payload := p |}.

(** *** multer *)

Record Upload := {
  fieldname : string;
  originalname : string;
  mimetype : string;
  size : Z
}.

Definition allowedTypes : list string := ["image/jpeg"; "image/png"; "image/gif"].

(** [fileFilter]: [Ok] for [cb(null, true)], else the error passed to [cb]. *)
Definition fileFilter (file : Upload) : result unit :=
  if existsb (String.eqb (mimetype file)) allowedTypes then Ok tt
  else Throw (JsError "Invalid file type. Only JPEG, PNG and GIF allowed.").

Definition fileSize : Z := 5 * 1024 * 1024.

(** The stream of the file hits [limits.fileSize]. *)
Definition too_large (L : Library) (file : Upload) : bool :=
  if refuses_at_limit L then fileSize <=? size file else fileSize <? size file.

(** [storage.filename]. *)
Definition filename (env : Env) (file : Upload) : string :=
  pretty (t_upload env) +:+ "-" +:+ originalname file.

(** [upload.single('img')]: a file part under another field name is
    refused, then the filter runs, then the file is streamed to the disk
    until it ends or passes the size limit (what was written is removed
    then).  Gives [req.file.filename], [None] when the request has no
    file part. *)
Definition upload_single (L : Library) (env : Env) (file : option Upload)
    (s : State) : result (State * option string) :=
  match file with
  | None => Ok (s, None)
  | Some f =>
      if negb (String.eqb (fieldname f) "img") then
        Throw (MulterError LIMIT_UNEXPECTED_FILE)
      else
        _ ← fileFilter f;
        if too_large L f then Throw (MulterError LIMIT_FILE_SIZE)
        else Ok (with_upload (filename env f) s, Some (filename env f))
  end.

(** *** express: handlers and the error middleware *)

(** How a route's middleware stack ends: a response was sent, an error
    was passed to [next], or the handler's promise rejected. *)
Inductive Settled :=
| Sent (r : Response)
| Next (e : Err)
| Rejected (e : Err).

(** [try { ... } catch (err) { next(err); }] in an [async] handler.
    [next] is a parameter of one handler only; in the others the call in
    the [catch] block raises a ReferenceError and the promise of the
    handler rejects with it. *)
Definition try_catch (binds_next : bool) (s : State)
    (r : result (State * Response)) : State * Settled :=
  match r with
  | Ok (s', resp) => (s', Sent resp)
  | Throw e => (s, if binds_next then Next e else Rejected NextNotDefined)
  end.

Definition errorHandler (L : Library) (err : Err) : Response :=
  json 500 (Failure "Something went wrong!" (message L err)).

(** What the client gets.  [Unanswered]: the promise of the handler
    rejected and nothing handles the rejection, so no response is ever
    sent. *)
Inductive Outcome :=
| Responded (r : Response)
| Unanswered.

Definition settle (L : Library) (st : Settled) : Outcome :=
  match st with
  | Sent r => Responded r
  | Next e => Responded (errorHandler L e)
  | Rejected e => if express5 L then Responded (errorHandler L e) else Unanswered
  end.

(** The double nearest to the integer [m]: a JavaScript number has a
    significand of 53 bits, so an integer of a magnitude below 2^53 is a
    number, and a larger one is rounded to a multiple of the unit in its
    last place, a tie going to the even significand.  This is how the sum
    of two numbers is rounded.  (A sum of 2^1024 or more is [Infinity];
    a number plus one stays below that.) *)
Definition to_double (m : Z) : Z :=
  let a := Z.abs m in
  if a <? 2 ^ 53 then m
  else
    let ulp := 2 ^ (Z.log2 a - 52) in
    let q := a / ulp in
    let r := a mod ulp in
    let q' := if 2 * r <? ulp then q
              else if ulp <? 2 * r then q + 1
              else if Z.even q then q else q + 1 in
    Z.sgn m * (q' * ulp).

(** [Number.isSafeInteger] on an integer. *)
Definition safe_integer (n : Z) : bool := Z.abs n <? 2 ^ 53.

(** [lastProject.id + 1] on the stored value of the Number path [id]:
    the sum of two numbers, rounded as such; [null + 1] is 1 and
    [undefined + 1] is [NaN]. *)
Definition plus_one (o : option value) : jsval :=
  match o with
  | Some (VNum n) => JNum (to_double (n + 1))
  | Some VNull => JNum 1
  | _ => JNaN
  end.

(** [lastProject ? lastProject.id + 1 : 1]. *)
Definition newId (lastProject : option doc) : jsval :=
  match lastProject with
  | Some p => plus_one (p !! "id")
  | None => JNum 1
  end.

Section Handlers.
Context (L : Library) (v : Variant) (env : Env).

(** GET /api/projects *)
Definition get_projects (s : State) : State * Settled :=
  try_catch false s
    (found ← db env 0 (Ok (sort_desc "createdAt" (projects s)));
     Ok (s, json 200 (Docs found))).

(** GET /api/projects/:id *)
Definition get_project (id : string) (s : State) : State * Settled :=
  try_catch false s
    (project ← findOne L env 0 "id" TNumber id (projects s);
     match project with
     | None => Ok (s, json 404 (Message "Project not found"))
     | Some p => Ok (s, json 200 (Document p))
     end).

(** The object literal given to [new Project] in POST /api/projects. *)
Definition project_fields (b : body) (id : jsval) (file : option string)
  : result body :=
  match v with
  | index_js =>
      match file with
      | Some name =>
          Ok (<["updatedAt" := JDate (t_now env)]>
                (<["img" := JStr ("/uploads/projects/" +:+ name)]>
                   (<["id" := id]> b)))
      | None => Throw FileUndefined
      end
  | part_000 =>
      Ok (<["updatedAt" := JDate (t_now env)]> (<["id" := id]> b))
  end.

(** The handler of POST /api/projects, after the middleware. *)
Definition create_project (errors : list string) (b : body)
    (file : option string) (s : State) : result (State * Response) :=
  match errors with
  | _ :: _ => Ok (s, json 400 (Errors errors))
  | [] =>
      lastProject ← db env 0 (Ok (head (sort_desc "id" (projects s))));
      obj ← project_fields b (newId lastProject) file;
      let project := new_document L env (ProjectSchema v) obj in
      coll ← save L env 1 (ProjectSchema v) obj project (projects s);
      Ok (with_projects coll s, json 201 (Document project))
  end.

(** POST /api/projects: [upload.single('img')] (in src/index.js only),
    [validateProject], the handler. *)
Definition post_projects (b : body) (file : option Upload) (s : State)
  : State * Settled :=
  match v with
  | index_js =>
      match upload_single L env file s with
      | Throw e => (s, Next e)
      | Ok (s1, name) =>
          let '(errors, b1) := validate L (validateProject v) b in
          try_catch true s1 (create_project errors b1 name s1)
      end
  | part_000 =>
      let '(errors, b1) := validate L (validateProject v) b in
      try_catch false s (create_project errors b1 None s)
  end.

(** PUT /api/projects/:id *)
Definition put_project (id : string) (b : body) (s : State) : State * Settled :=
  let '(errors, b1) := validate L (validateProject v) b in
  try_catch false s
    match errors with
    | _ :: _ => Ok (s, json 400 (Errors errors))
    | [] =>
        '(coll, project) ←
          findOneAndUpdate L env 0 (ProjectSchema v) "id" TNumber id
            (<["updatedAt" := JDate (t_now env)]> b1) (projects s);
        match project with
        | None => Ok (s, json 404 (Message "Project not found"))
        | Some p => Ok (with_projects coll s, json 200 (Document p))
        end
    end.

(** DELETE /api/projects/:id *)
Definition delete_project (id : string) (s : State) : State * Settled :=
  try_catch false s
    ('(coll, project) ← findOneAndDelete L env 0 "id" TNumber id (projects s);
     match project with
     | None => Ok (s, json 404 (Message "Project not found"))
     | Some _ =>
         Ok (with_projects coll s, json 200 (Message "Project deleted successfully"))
     end).

(** POST /api/feedback *)
Definition post_feedback (b : body) (s : State) : State * Settled :=
  let '(errors, b1) := validate L (validateFeedback v) b in
  try_catch false s
    match errors with
    | _ :: _ => Ok (s, json 400 (Errors errors))
    | [] =>
        let feedback := new_document L env (FeedbackSchema v) b1 in
        coll ← save L env 0 (FeedbackSchema v) b1 feedback (feedbacks s);
        Ok (with_feedbacks coll s, json 201 (Document feedback))
    end.

(** GET /api/feedback *)
Definition get_feedback (s : State) : State * Settled :=
  try_catch false s
    (found ← db env 0 (Ok (sort_desc "createdAt" (feedbacks s)));
     Ok (s, json 200 (Docs found))).

(** POST /api/hire-me *)
Definition post_hire_me (b : body) (s : State) : State * Settled :=
  let '(errors, b1) := validate L (validateHireMe v) b in
  try_catch false s
    match errors with
    | _ :: _ => Ok (s, json 400 (Errors errors))
    | [] =>
        let hireRequest := new_document L env (HireMeSchema v) b1 in
        coll ← save L env 0 (HireMeSchema v) b1 hireRequest (hire_requests s);
        Ok (with_hire_requests coll s, json 201 (Document hireRequest))
    end.

(** GET /api/hire-me *)
Definition get_hire_me (s : State) : State * Settled :=
  try_catch false s
    (found ← db env 0 (Ok (sort_desc "createdAt" (hire_requests s)));
     Ok (s, json 200 (Docs found))).

(** PUT /api/feedback/:id/approve.  The handler does not read
    [req.body]. *)
Definition approve_feedback (id : string) (b : body) (s : State)
  : State * Settled :=
  try_catch false s
    ('(coll, feedback) ←
       findOneAndUpdate L env 0 (FeedbackSchema v) "_id" TObjectId id
         {[ "approved" := JBool true ]} (feedbacks s);
     match feedback with
     | None => Ok (s, json 404 (Message "Feedback not found"))
     | Some f => Ok (with_feedbacks coll s, json 200 (Document f))
     end).

(** DELETE /api/feedback/:id/delete (src/index.js) *)
Definition delete_feedback (id : string) (s : State) : State * Settled :=
  try_catch false s
    ('(coll, feedback) ← deleteOne L env 0 "_id" TObjectId id (feedbacks s);
     if negb (acknowledged feedback) then
       Ok (with_feedbacks coll s, json 404 (Message "Feedback not found"))
     else Ok (with_feedbacks coll s, json 200 (Deleted feedback))).
End Handlers.

(** The requests of the API. *)
Inductive Request :=
| GET_projects
| GET_project (id : string)
| POST_projects (b : body) (file : option Upload)
| PUT_project (id : string) (b : body)
| DELETE_project (id : string)
| POST_feedback (b : body)
| GET_feedback
| POST_hire_me (b : body)
| GET_hire_me
| PUT_feedback_approve (id : string) (b : body)
| DELETE_feedback (id : string).

(** The router: the state after the request and how it ended.  The
    earlier variant has no route for the deletion of feedback; express
    answers 404 itself there. *)
Definition route (L : Library) (v : Variant) (env : Env) (r : Request) (s : State)
  : State * Settled :=
  match r with
  | GET_projects => get_projects env s
  | GET_project id => get_project L env id s
  | POST_projects b file => post_projects L v env b file s
  | PUT_project id b => put_project L v env id b s
  | DELETE_project id => delete_project L env id s
  | POST_feedback b => post_feedback L v env b s
  | GET_feedback => get_feedback env s
  | POST_hire_me b => post_hire_me L v env b s
  | GET_hire_me => get_hire_me env s
  | PUT_feedback_approve id b => approve_feedback L v env id b s
  | DELETE_feedback id =>
      match v with
      | index_js => delete_feedback L env id s
      | part_000 => (s, Sent (json 404 NoRoute))
      end
  end.

(** One request served: the state afterwards and what the client gets. *)
Definition serve (L : Library) (v : Variant) (env : Env) (r : Request) (s : State)
  : State * Outcome :=
  let '(s', st) := route L v env r s in (s', settle L st).

(** ** An instance of the libraries, for running the handlers *)

(** ASCII versions of the string functions, and the conversions of
    decimal numerals and of 24-character identifiers. *)
Module Sample.

Definition is_space (c : Ascii.ascii) : bool :=
  let n := Ascii.nat_of_ascii c in
  ((n =? 32) || (n =? 9) || (n =? 10) || (n =? 13))%nat.

Fixpoint trim_left (s : string) : string :=
  match s with
  | String c rest => if is_space c then trim_left rest else s
  | EmptyString => EmptyString
  end.

Definition trim (s : string) : string :=
  String.rev (trim_left (String.rev (trim_left s))).

Definition lower_ascii (c : Ascii.ascii) : Ascii.ascii :=
  let n := Ascii.nat_of_ascii c in
  if ((65 <=? n) && (n <=? 90))%nat then Ascii.ascii_of_nat (n + 32) else c.

Fixpoint lower (s : string) : string :=
  match s with
  | String c rest => String (lower_ascii c) (lower rest)
  | EmptyString => EmptyString
  end.

Definition escape_ascii (c : Ascii.ascii) : string :=
  let n := Ascii.nat_of_ascii c in
  if (n =? 38)%nat then "&amp;"
  else if (n =? 60)%nat then "&lt;"
  else if (n =? 62)%nat then "&gt;"
  else if (n =? 34)%nat then "&quot;"
  else if (n =? 39)%nat then "&#x27;"
  else if (n =? 47)%nat then "&#x2F;"
  else if (n =? 92)%nat then "&#x5C;"
  else if (n =? 96)%nat then "&#96;"
  else String c EmptyString.

Fixpoint escape (s : string) : string :=
  match s with
  | String c rest => escape_ascii c +:+ escape rest
  | EmptyString => EmptyString
  end.

Definition digit (c : Ascii.ascii) : option Z :=
  let n := Ascii.nat_of_ascii c in
  if ((48 <=? n) && (n <=? 57))%nat then Some (Z.of_nat n - 48) else None.

Fixpoint digits (acc : Z) (s : string) : option Z :=
  match s with
  | EmptyString => Some acc
  | String c rest =>
      match digit c with
      | Some d => digits (10 * acc + d) rest
      | None => None
      end
  end.

(** A non-empty string of decimal digits. *)
Definition numeral (s : string) : option Z :=
  match s with
  | EmptyString => None
  | _ => digits 0 s
  end.

(** Something, an at sign, something. *)
Definition email (s : string) : bool :=
  match String.index 0 "@" s with
  | Some i => ((0 <? i) && (i + 1 <? String.length s))%nat
  | None => false
  end.

Definition conversions (t : SchemaType) (j : jsval) : option value :=
  match t, j with
  | TNumber, JStr s => VNum <$> numeral s
  | TObjectId, JStr s =>
      if (String.length s =? 24)%nat then Some (VOid s) else None
  | _, _ => None
  end.

Definition library : Library :=
  {| str_escape := escape;
     is_email := email;
     normalize_email := fun s => JStr (lower s);
     is_numeric := fun s => match numeral s with Some _ => true | None => false end;
     date_iso := fun t => pretty t;
     str_trim := trim;
     str_lower := lower;
     convert := conversions;
     update_operators := fun _ _ => inl (OperatorError "unsupported");
     refuses_at_limit := true;
     lib_message := fun _ => "library error";
     express5 := false |}.

Definition env (t : Z) (oid : string) : Env :=
  {| t_upload := t; t_now := t; t_default := t; fresh_oid := oid;
     db_fault := fun _ => None |}.

Definition empty : State :=
  {| projects := []; feedbacks := []; hire_requests := []; uploads := [] |}.

Definition png : Upload :=
  {| fieldname := "img"; originalname := "a.png"; mimetype := "image/png";
     size := 1024 |}.

Definition project_body : body :=
  {[ "title" := JStr "A"; "category" := JStr "web"; "img" := JStr "a.png" ]}.

Definition feedback_body : body :=
  {[ "name" := JStr "Ann"; "role" := JStr "CTO"; "company" := JStr "Acme";
     "email" := JStr "ann@acme.io"; "subject" := JStr "Hi";
     "message" := JStr "Nice work" ]}.

Definition oid1 : string := "0123456789abcdef01234567".
Definition oid2 : string := "0123456789abcdef01234568".

End Sample.

(** ** Predicates of the properties *)

(** [m] is the largest [id] among the documents of [coll]. *)
Definition max_id (coll : list doc) (m : Z) : Prop :=
  (exists p, p ∈ coll /\ p !! "id" = Some (VNum m))
  /\ (forall p n, p ∈ coll -> p !! "id" = Some (VNum n) -> n <= m).

(** [max_id], decided. *)
Definition is_max_id (coll : list doc) (m : Z) : bool :=
  existsb (fun d => match d !! "id" with
                    | Some (VNum n) => n =? m
                    | _ => false
                    end) coll
  && forallb (fun d => match d !! "id" with
                       | Some (VNum n) => n <=? m
                       | _ => true
                       end) coll.

(** Every numeric [id] of the collection is a safe integer. *)
Definition safe_ids (coll : list doc) : bool :=
  forallb (fun d => match d !! "id" with
                    | Some (VNum n) => safe_integer n
                    | _ => true
                    end) coll.

(** The collection a listing request reads. *)
Definition listing (r : Request) (s : State) : option (list doc) :=
  match r with
  | GET_projects => Some (projects s)
  | GET_feedback => Some (feedbacks s)
  | GET_hire_me => Some (hire_requests s)
  | _ => None
  end.

(** Each document stands strictly before the next one in a sort
    [{k: -1}]. *)
Fixpoint strictly_sorted (k : string) (l : list doc) : bool :=
  match l with
  | d1 :: (d2 :: _) as rest =>
      bool_decide (strictly_descending k d1 d2) && strictly_sorted k rest
  | _ => true
  end.

(** A body of plain field names: no update operator, no dotted path. *)
Definition plain_body (b : body) : Prop :=
  forall k, is_Some (b !! k) -> plain_key k = true.

(** A field without text: absent, [null] or the empty string. *)
Definition blank (v : option jsval) : Prop :=
  v = None \/ v = Some JNull \/ v = Some (JStr "").

(** [body("img").notEmpty()]. *)
Definition img_chain : Chain :=
  {| field := "img"; is_optional := false; items := [NotEmpty] |}.

Definition is_404 (o : Outcome) : bool :=
  match o with
  | Responded r => status r =? 404
  | Unanswered => false
  end.

(** The document of a response, the empty one when it has none. *)
Definition sent_document (o : Outcome) : doc :=
  match o with
  | Responded {| payload := Document d |} => d
  | _ => ∅
  end.

(** ** Scenarios *)

(** The first project is created at time 1000, with an image and with
    the text field [img] that the validator asks for. *)
Definition first_created : State * Outcome :=
  serve Sample.library index_js (Sample.env 1000 Sample.oid1)
    (POST_projects Sample.project_body (Some Sample.png)) Sample.empty.

(** A second project is created at time 2000. *)
Definition second_created : State * Outcome :=
  serve Sample.library index_js (Sample.env 2000 Sample.oid2)
    (POST_projects Sample.project_body (Some Sample.png)) first_created.1.

(** The first project is given the [id] 2^53 by an update at time 3000,
    and a project is created at time 4000. *)
Definition renumbered : State * Outcome :=
  serve Sample.library index_js (Sample.env 3000 Sample.oid1)
    (PUT_project "1" (<["id" := JNum (2 ^ 53)]> Sample.project_body))
    first_created.1.

Definition reissued : State * Outcome :=
  serve Sample.library index_js (Sample.env 4000 Sample.oid2)
    (POST_projects Sample.project_body (Some Sample.png)) renumbered.1.

(** The first project is updated at time 3000. *)
Definition updated : State * Outcome :=
  serve Sample.library index_js (Sample.env 3000 Sample.oid1)
    (PUT_project "1" Sample.project_body) first_created.1.

(** The first project is updated at time 3000 with [createdAt: 5] in
    the body. *)
Definition backdated : State * Outcome :=
  serve Sample.library index_js (Sample.env 3000 Sample.oid1)
    (PUT_project "1" (<["createdAt" := JNum 5]> Sample.project_body))
    first_created.1.

(** A creation without the text field [img], with an image. *)
Definition no_img : State * Outcome :=
  serve Sample.library index_js (Sample.env 1000 Sample.oid1)
    (POST_projects (delete "img" Sample.project_body) (Some Sample.png))
    Sample.empty.

Definition pdf : Upload :=
  {| fieldname := "img"; originalname := "cv.pdf"; mimetype := "application/pdf";
     size := 1024 |}.

Definition huge_png : Upload :=
  {| fieldname := "img"; originalname := "big.png"; mimetype := "image/png";
     size := 5 * 1024 * 1024 + 1 |}.

(** A feedback record is created at time 1000. *)
Definition feedback_created : State * Outcome :=
  serve Sample.library index_js (Sample.env 1000 Sample.oid1)
    (POST_feedback Sample.feedback_body) Sample.empty.

(** A feedback record is created with [approved: true] in the body. *)
Definition preapproved : State * Outcome :=
  serve Sample.library index_js (Sample.env 1000 Sample.oid1)
    (POST_feedback (<["approved" := JBool true]> Sample.feedback_body))
    Sample.empty.

(** Two feedback records created within the same millisecond. *)
Definition same_millisecond : State :=
  (serve Sample.library index_js (Sample.env 1000 Sample.oid2)
     (POST_feedback Sample.feedback_body) feedback_created.1).1.

(** Two feedback records created at different times, the second with a
    [createdAt] of its own in the request body. *)
Definition same_createdAt : State :=
  (serve Sample.library index_js (Sample.env 2000 Sample.oid2)
     (POST_feedback (<["createdAt" := JNum 1000]> Sample.feedback_body))
     feedback_created.1).1.

(** The feedback record is approved, by a request that has a body. *)
Definition approved_once : State * Outcome :=
  serve Sample.library index_js (Sample.env 2000 Sample.oid2)
    (PUT_feedback_approve Sample.oid1 Sample.feedback_body) feedback_created.1.

(** The deletion of a feedback record that is not in the collection. *)
Definition unknown_deleted : State * Outcome :=
  serve Sample.library index_js (Sample.env 2000 Sample.oid1)
    (DELETE_feedback Sample.oid2) feedback_created.1.

(** A request during which every database call rejects. *)
Definition db_down : Env :=
  {| t_upload := 1000; t_now := 1000; t_default := 1000;
     fresh_oid := Sample.oid1;
     db_fault := fun _ => Some "connection lost" |}.

(** ** Predicates of the further properties *)

(** What a request leaves as it is: a reading request the whole state,
    each of the others the collections of the other resources, and all
    but the creation of a project the upload directory. *)
Definition untouched (r : Request) (s s' : State) : Prop :=
  match r with
  | GET_projects | GET_project _ | GET_feedback | GET_hire_me => s' = s
  | POST_projects _ _ =>
      feedbacks s' = feedbacks s /\ hire_requests s' = hire_requests s
  | PUT_project _ _ | DELETE_project _ =>
      feedbacks s' = feedbacks s /\ hire_requests s' = hire_requests s
      /\ uploads s' = uploads s
  | POST_feedback _ | PUT_feedback_approve _ _ | DELETE_feedback _ =>
      projects s' = projects s /\ hire_requests s' = hire_requests s
      /\ uploads s' = uploads s
  | POST_hire_me _ =>
      projects s' = projects s /\ feedbacks s' = feedbacks s
      /\ uploads s' = uploads s
  end.

(** The request was answered 200 or 201. *)
Definition succeeded (o : Outcome) : bool :=
  match o with
  | Responded r => (status r =? 200) || (status r =? 201)
  | Unanswered => false
  end.

(** The validation chains of a route with a JSON body, and that body. *)
Definition checked (v : Variant) (r : Request) : option (list Chain * body) :=
  match r with
  | PUT_project _ b => Some (validateProject v, b)
  | POST_feedback b => Some (validateFeedback v, b)
  | POST_hire_me b => Some (validateHireMe v, b)
  | _ => None
  end.

(** A chain [body(f).notEmpty()...] that is not optional. *)
Definition required_text (c : Chain) : Prop :=
  is_optional c = false /\ exists rest, items c = NotEmpty :: rest.

(** The request was answered with the status [st] and a document. *)
Definition sent_with (st : Z) (o : Outcome) : bool :=
  match o with
  | Responded {| status := st'; payload := Document _ |} => st' =? st
  | _ => false
  end.

(** The creating requests, with their body. *)
Definition creation (r : Request) : option body :=
  match r with
  | POST_projects b _ | POST_feedback b | POST_hire_me b => Some b
  | _ => None
  end.

(** ** Scenarios of the further properties *)

(** A state written by hand: two projects, one feedback record. *)
Definition project_one : doc :=
  {[ "_id" := VOid Sample.oid1; "id" := VNum 1; "title" := VStr "A" ]}.

Definition project_two : doc :=
  {[ "_id" := VOid Sample.oid2; "id" := VNum 2; "title" := VStr "B" ]}.

Definition feedback_one : doc :=
  {[ "_id" := VOid Sample.oid1; "name" := VStr "Ann"; "approved" := VBool false ]}.

Definition small : State :=
  {| projects := [project_one; project_two]; feedbacks := [feedback_one];
     hire_requests := []; uploads := [] |}.

(** A feedback body without name and without message. *)
Definition nameless : body :=
  delete "name" (delete "message" Sample.feedback_body).

(** A project is created by the earlier variant, from a JSON body. *)
Definition plain_created : State * Outcome :=
  serve Sample.library part_000 (Sample.env 1000 Sample.oid1)
    (POST_projects Sample.project_body None) Sample.empty.

(** * Properties *)

(** One step of a handler's body that returned: the call under the
    first bind of [H] gave a value. *)
Ltac bind_step H :=
  match type of H with
  | mbind _ ?r = _ =>
      let E := fresh "E" in
      destruct r eqn:E; [cbn [mbind result_bind] in H | discriminate H]
  end.

(** ** Sorting *)

Lemma key_le_refl a : key_le a a.
Proof. destruct a; simpl; [lia | exact I]. Qed.

Lemma key_le_trans a b c : key_le a b -> key_le b c -> key_le a c.
Proof. destruct a, b, c; simpl; try tauto; lia. Qed.

Lemma key_le_total a b : key_le a b \/ key_le b a.
Proof. destruct a, b; simpl; try tauto; lia. Qed.

Lemma key_lt_le a b : key_lt a b -> key_le a b.
Proof. destruct a, b; simpl; try tauto; lia. Qed.

Lemma key_lt_irrefl a : ~ key_lt a a.
Proof. destruct a; simpl; [lia | tauto]. Qed.

#[global] Instance descending_total k : Total (descending k).
Proof. intros x y. unfold descending. apply key_le_total. Qed.

#[global] Instance descending_trans k : Transitive (descending k).
Proof. intros x y z Hxy Hyz. unfold descending in *. eapply key_le_trans; eauto. Qed.

Lemma sort_desc_sorted k coll : StronglySorted (descending k) (sort_desc k coll).
Proof. apply StronglySorted_merge_sort; apply _. Qed.

Lemma sort_desc_perm k coll : sort_desc k coll ≡ₚ coll.
Proof. apply merge_sort_Permutation. Qed.

Lemma sort_desc_nil k : sort_desc k [] = [].
Proof.
  apply Permutation_nil_r, sort_desc_perm.
Qed.

(** The first document of a descending sort carries a largest key. *)
Lemma head_sort_desc k coll p :
  head (sort_desc k coll) = Some p ->
  p ∈ coll /\ forall q, q ∈ coll -> key_le (sort_key (q !! k)) (sort_key (p !! k)).
Proof.
  intros Hhd.
  pose proof (sort_desc_sorted k coll) as Hs.
  pose proof (sort_desc_perm k coll) as Hp.
  destruct (sort_desc k coll) as [|p' rest] eqn:E; [discriminate|].
  simpl in Hhd. injection Hhd as ->.
  split.
  - rewrite <- Hp. left.
  - intros q Hq. rewrite <- Hp in Hq.
    apply elem_of_cons in Hq as [-> | Hq]; [apply key_le_refl|].
    apply StronglySorted_inv in Hs as [_ Hall].
    rewrite Forall_forall in Hall. apply (Hall q Hq).
Qed.

Lemma head_sort_desc_None k coll :
  head (sort_desc k coll) = None -> coll = [].
Proof.
  intros Hhd. pose proof (sort_desc_perm k coll) as Hp.
  destruct (sort_desc k coll); [|discriminate].
  by apply Permutation_nil.
Qed.

(** ** Documents *)

Lemma new_document_lookup L env sch obj k :
  new_document L env sch obj !! k = init_path L env (sch !! k) (obj !! k).
Proof.
  unfold new_document. rewrite lookup_merge.
  destruct (sch !! k), (obj !! k); reflexivity.
Qed.

Lemma fst_map_to_list_nil {A} (m : gmap string A) :
  (map_to_list m).*1 = [] -> m = ∅.
Proof.
  intros H. apply map_to_list_empty_iff.
  destruct (map_to_list m); [reflexivity | discriminate].
Qed.

(** A document that passes validation has no failed cast and no empty
    required path. *)
Lemma invalid_paths_nil L sch obj d :
  invalid_paths L sch obj d = [] ->
  (forall k, cast_fails L (sch !! k) (obj !! k) = None)
  /\ (forall k, missing (sch !! k) (d !! k) = None).
Proof.
  unfold invalid_paths. intros H.
  apply app_eq_nil in H as [H1 H2].
  apply fst_map_to_list_nil in H1. apply fst_map_to_list_nil in H2.
  split; intros k.
  - pose proof (lookup_merge (cast_fails L) sch obj k) as E.
    rewrite H1, lookup_empty in E.
    destruct (sch !! k), (obj !! k); simpl in *; try reflexivity; by symmetry.
  - pose proof (lookup_merge missing sch d k) as E.
    rewrite H2, lookup_empty in E.
    destruct (sch !! k) as [p|], (d !! k); simpl in *; try reflexivity; by symmetry.
Qed.

Lemma save_Ok L env i sch obj d coll coll' :
  save L env i sch obj d coll = Ok coll' ->
  invalid_paths L sch obj d = [] /\ db_fault env i = None /\ coll' = coll ++ [d].
Proof.
  unfold save, db. intros H.
  destruct (invalid_paths L sch obj d); [|discriminate].
  destruct (db_fault env i); [discriminate|].
  destruct (existsb _ coll); [discriminate|].
  by injection H as <-.
Qed.

(** ** The middleware stack *)

Lemma upload_single_Ok L env file s s1 name :
  upload_single L env file s = Ok (s1, name) ->
  projects s1 = projects s /\ feedbacks s1 = feedbacks s
  /\ hire_requests s1 = hire_requests s.
Proof.
  unfold upload_single. intros H.
  destruct file as [f|]; [|by injection H as <- _].
  destruct (negb _); [discriminate|].
  destruct (fileFilter f); simpl in H; [|discriminate].
  destruct (too_large L f); [discriminate|].
  by injection H as <- _.
Qed.

(** A response other than the 500 of the error middleware was sent by
    the handler itself. *)
Lemma try_catch_sent L binds s r s' st resp :
  try_catch binds s r = (s', st) ->
  settle L st = Responded resp ->
  status resp <> 500 ->
  r = Ok (s', resp).
Proof.
  unfold try_catch. intros H Hst Hne.
  destruct r as [[s1 r1]|e].
  - injection H as <- <-. simpl in Hst. by injection Hst as <-.
  - injection H as <- <-. exfalso.
    destruct binds; simpl in Hst.
    + injection Hst as <-. by apply Hne.
    + destruct (express5 L); [|discriminate].
      injection Hst as <-. by apply Hne.
Qed.

(** ** C1: the [id] of a created project *)

Lemma max_id_singleton (d : doc) m :
  d !! "id" = Some (VNum m) -> max_id [d] m.
Proof.
  intros Hd. split.
  - exists d. split; [left | exact Hd].
  - intros p n Hp Hn. apply list_elem_of_singleton in Hp. subst p.
    rewrite Hd in Hn. injection Hn as <-. lia.
Qed.

Lemma ProjectSchema_id v : ProjectSchema v !! "id" = Some (plain TNumber).
Proof. destruct v; reflexivity. Qed.

Lemma project_fields_id v env b i file obj :
  project_fields v env b i file = Ok obj -> obj !! "id" = Some i.
Proof.
  unfold project_fields. intros H.
  destruct v; [destruct file; [|discriminate]|]; injection H as <-.
  - rewrite lookup_insert_ne, lookup_insert_ne, lookup_insert_eq; done.
  - rewrite lookup_insert_ne, lookup_insert_eq; done.
Qed.

(** What a 201 of the creation handler means. *)
Lemma create_project_201 L v env errors b file s s' p :
  create_project L v env errors b file s = Ok (s', json 201 (Document p)) ->
  exists obj,
    project_fields v env b (newId (head (sort_desc "id" (projects s)))) file = Ok obj
    /\ p = new_document L env (ProjectSchema v) obj
    /\ invalid_paths L (ProjectSchema v) obj p = []
    /\ s' = with_projects (projects s ++ [p]) s.
Proof.
  unfold create_project. intros H.
  destruct errors; [|discriminate].
  unfold db in H. destruct (db_fault env 0); [discriminate|]. simpl in H.
  destruct (project_fields v env b _ file) as [obj|] eqn:Ef; [|discriminate].
  simpl in H.
  destruct (save L env 1 _ obj _ (projects s)) as [coll|] eqn:Es; [|discriminate].
  simpl in H. injection H as <- <-.
  apply save_Ok in Es as (Hv & _ & ->).
  exists obj. done.
Qed.

Lemma post_projects_201 L v env b file s s' p :
  serve L v env (POST_projects b file) s
    = (s', Responded (json 201 (Document p))) ->
  exists errors b1 name s1,
    projects s1 = projects s
    /\ create_project L v env errors b1 name s1 = Ok (s', json 201 (Document p)).
Proof.
  unfold serve, route, post_projects. intros H.
  destruct v.
  - destruct (upload_single L env file s) as [[s1 name]|e] eqn:Eu.
    + destruct (validate L (validateProject index_js) b) as [errors b1].
      destruct (try_catch true s1 _) as [s2 st] eqn:Et.
      injection H as -> Hst.
      eapply try_catch_sent in Et; [|exact Hst|simpl; lia].
      apply upload_single_Ok in Eu as (Hp & _).
      by exists errors, b1, name, s1.
    + simpl in H. injection H as _ H. discriminate.
  - destruct (validate L (validateProject part_000) b) as [errors b1].
    destruct (try_catch false s _) as [s2 st] eqn:Et.
    injection H as -> Hst.
    eapply try_catch_sent in Et; [|exact Hst|simpl; lia].
    by exists errors, b1, None, s.
Qed.

Lemma newId_cases lastProject :
  (exists n, newId lastProject = JNum n) \/ newId lastProject = JNaN.
Proof.
  destruct lastProject as [p|]; simpl; [|eauto].
  unfold plus_one. destruct (p !! "id") as [[]|]; eauto.
Qed.

(** The [id] given to [new Project] is the one the document gets, when
    the document passes validation. *)
Lemma created_id L v env obj lastProject :
  obj !! "id" = Some (newId lastProject) ->
  invalid_paths L (ProjectSchema v) obj (new_document L env (ProjectSchema v) obj) = [] ->
  exists n, newId lastProject = JNum n
    /\ new_document L env (ProjectSchema v) obj !! "id" = Some (VNum n).
Proof.
  intros Hi Hv.
  apply invalid_paths_nil in Hv as [Hc _].
  specialize (Hc "id"). rewrite ProjectSchema_id, Hi in Hc.
  rewrite new_document_lookup, ProjectSchema_id, Hi.
  destruct (newId_cases lastProject) as [[n E] | E]; rewrite E in *.
  - exists n. done.
  - discriminate.
Qed.

Lemma to_double_safe m : Z.abs m <= 2 ^ 53 -> to_double m = m.
Proof.
  intros H. unfold to_double. cbv zeta.
  destruct (Z.ltb_spec (Z.abs m) (2 ^ 53)) as [|Hge]; [reflexivity|].
  assert (E : Z.abs m = 2 ^ 53) by lia.
  rewrite E.
  assert (Em : m = 2 ^ 53 \/ m = - 2 ^ 53) by lia.
  destruct Em as [-> | ->]; vm_compute; reflexivity.
Qed.

Lemma plus_one_safe n :
  safe_integer n = true -> plus_one (Some (VNum n)) = JNum (n + 1).
Proof.
  unfold safe_integer. intros H. apply Z.ltb_lt in H.
  simpl. rewrite to_double_safe; [reflexivity|lia].
Qed.

Lemma safe_ids_spec coll :
  safe_ids coll = true ->
  forall q n, q ∈ coll -> q !! "id" = Some (VNum n) -> safe_integer n = true.
Proof.
  unfold safe_ids. rewrite forallb_forall. intros H q n Hq Hn.
  apply list_elem_of_In in Hq. specialize (H q Hq). by rewrite Hn in H.
Qed.

(** The first document of the descending sort on [id] has the largest
    [id], when there is one. *)
Lemma newId_max coll m n :
  max_id coll m ->
  newId (head (sort_desc "id" coll)) = JNum n ->
  n = to_double (m + 1).
Proof.
  intros [(q & Hq & Hqm) Hmax] Hn.
  destruct (head (sort_desc "id" coll)) as [l|] eqn:Eh.
  - apply head_sort_desc in Eh as [Hl Hle].
    specialize (Hle q Hq). rewrite Hqm in Hle.
    simpl in Hn. unfold plus_one in Hn.
    destruct (l !! "id") as [[]|] eqn:El; try discriminate.
    + simpl in Hle. contradiction.
    + injection Hn as <-. simpl in Hle.
      specialize (Hmax l _ Hl El). f_equal. lia.
  - apply head_sort_desc_None in Eh. rewrite Eh in Hq. by apply elem_of_nil in Hq.
Qed.

Lemma is_max_id_sound coll m : is_max_id coll m = true -> max_id coll m.
Proof.
  unfold is_max_id. intros [He Hf]%andb_true_iff. split.
  - apply existsb_exists in He as (d & Hd & H).
    exists d. split; [by apply list_elem_of_In|].
    destruct (d !! "id") as [[]|]; try discriminate.
    apply Z.eqb_eq in H. by subst.
  - intros p n Hp Hn. rewrite forallb_forall in Hf.
    apply list_elem_of_In in Hp. specialize (Hf p Hp). rewrite Hn in Hf.
    by apply Z.leb_le.
Qed.

(** C1, as stated, fails: after an update gave the only project the
    [id] 2^53, a creation is answered 201 with a record whose [id] is
    2^53 again, not one more, and the collection holds two projects of
    that [id]. *)
Lemma created_id_counterexample :
  max_id (projects renumbered.1) (2 ^ 53)
  /\ sent_with 201 reissued.2 = true
  /\ sent_document reissued.2 !! "id" = Some (VNum (2 ^ 53))
  /\ sent_document reissued.2 !! "id" <> Some (VNum (2 ^ 53 + 1))
  /\ (fun d : doc => d !! "id") <$> projects reissued.1
     = [Some (VNum (2 ^ 53)); Some (VNum (2 ^ 53))].
Proof.
  assert (Ei : sent_document reissued.2 !! "id" = Some (VNum (2 ^ 53)))
    by (vm_compute; reflexivity).
  split; [|split; [|split; [|split]]].
  - apply is_max_id_sound. vm_compute. reflexivity.
  - vm_compute. reflexivity.
  - exact Ei.
  - rewrite Ei. discriminate.
  - vm_compute. reflexivity.
Qed.

(** C1, amended. Every successful creation of a project returns a record
    whose [id] is 1 when the collection was empty, and otherwise the
    number nearest to one more than the largest [id] of the collection,
    which is one more than the largest [id] when that is a safe integer
    (of a magnitude below 2^53); the record is the one appended to the
    collection. *)
Theorem created_project_id L v env b file s s' p :
  serve L v env (POST_projects b file) s
    = (s', Responded (json 201 (Document p))) ->
  (projects s = [] -> p !! "id" = Some (VNum 1))
  /\ (forall m, max_id (projects s) m ->
        p !! "id" = Some (VNum (to_double (m + 1)))
        /\ (safe_integer m = true -> p !! "id" = Some (VNum (m + 1))))
  /\ projects s' = projects s ++ [p].
Proof.
  intros H.
  apply post_projects_201 in H as (errors & b1 & name & s1 & Hp & H).
  apply create_project_201 in H as (obj & Hf & -> & Hv & ->).
  rewrite Hp in *.
  apply project_fields_id in Hf.
  destruct (created_id L v env obj _ Hf Hv) as (n & Hn & Hid).
  rewrite Hid. split; [|split]; [| |reflexivity].
  - intros Hnil. rewrite Hnil, sort_desc_nil in Hn. simpl in Hn.
    by injection Hn as <-.
  - intros m Hm. rewrite (newId_max _ m n Hm Hn). split; [reflexivity|].
    unfold safe_integer. intros Hsafe. apply Z.ltb_lt in Hsafe.
    rewrite to_double_safe; [reflexivity|lia].
Qed.

Lemma created_project_id_witness :
  sent_document first_created.2 !! "id" = Some (VNum 1)
  /\ sent_document second_created.2 !! "id" = Some (VNum 2).
Proof.
  split.
  - refine (proj1 (created_project_id Sample.library index_js
              (Sample.env 1000 Sample.oid1) Sample.project_body
              (Some Sample.png) Sample.empty first_created.1
              (sent_document first_created.2) _) _).
    + vm_compute. reflexivity.
    + reflexivity.
  - refine (proj2 (proj1 (proj2 (created_project_id Sample.library index_js
              (Sample.env 2000 Sample.oid2) Sample.project_body
              (Some Sample.png) first_created.1 second_created.1
              (sent_document second_created.2) _)) 1 _) _).
    + vm_compute. reflexivity.
    + assert (E : projects first_created.1 = [sent_document first_created.2])
        by (vm_compute; reflexivity).
      rewrite E. apply max_id_singleton. vm_compute. reflexivity.
    + reflexivity.
Defined.

(** ** C2: listing a collection *)

Lemma strictly_sorted_complete k l :
  Sorted (strictly_descending k) l -> strictly_sorted k l = true.
Proof.
  induction 1 as [|d l Hs IH Hhd]; [reflexivity|].
  destruct l as [|d2 l]; [reflexivity|].
  simpl. apply HdRel_inv in Hhd.
  rewrite (bool_decide_eq_true_2 _ Hhd). exact IH.
Qed.

(** C2, as stated, fails: with two records of the same [createdAt] in
    the collection, the listing answers 200 with both records, and the
    order is not strictly descending. *)
Lemma listing_strict_counterexample :
  (length (feedbacks same_millisecond) = 2%nat
   /\ serve Sample.library index_js (Sample.env 3000 Sample.oid1) GET_feedback
        same_millisecond
      = (same_millisecond,
         Responded (json 200 (Docs (sort_desc "createdAt" (feedbacks same_millisecond)))))
   /\ ~ Sorted (strictly_descending "createdAt")
        (sort_desc "createdAt" (feedbacks same_millisecond)))
  /\ (length (feedbacks same_createdAt) = 2%nat
      /\ ~ Sorted (strictly_descending "createdAt")
           (sort_desc "createdAt" (feedbacks same_createdAt))).
Proof.
  split; [split; [|split]|split].
  - vm_compute. reflexivity.
  - vm_compute. reflexivity.
  - intros H. apply strictly_sorted_complete in H. vm_compute in H. discriminate.
  - vm_compute. reflexivity.
  - intros H. apply strictly_sorted_complete in H. vm_compute in H. discriminate.
Qed.

(** C2, amended. When the database call succeeds, a listing answers 200
    with exactly the stored entries of its collection, ordered by
    [createdAt] descending; the state is unchanged. *)
Theorem listing_sorted L v env r s coll :
  listing r s = Some coll ->
  db_fault env 0 = None ->
  exists l,
    serve L v env r s = (s, Responded (json 200 (Docs l)))
    /\ l ≡ₚ coll
    /\ StronglySorted (descending "createdAt") l.
Proof.
  intros Hr Hdb.
  exists (sort_desc "createdAt" coll).
  split; [|split; [apply sort_desc_perm | apply sort_desc_sorted]].
  destruct r; try discriminate; injection Hr as <-;
    unfold serve, route, get_projects, get_feedback, get_hire_me, db;
    rewrite Hdb; reflexivity.
Qed.

Lemma listing_sorted_witness :
  exists l,
    serve Sample.library index_js (Sample.env 3000 Sample.oid1) GET_feedback
      same_createdAt
    = (same_createdAt, Responded (json 200 (Docs l)))
    /\ l ≡ₚ feedbacks same_createdAt
    /\ StronglySorted (descending "createdAt") l.
Proof.
  apply (listing_sorted Sample.library index_js (Sample.env 3000 Sample.oid1)
           GET_feedback same_createdAt); reflexivity.
Defined.

(** ** The validators leave the other fields alone *)

Lemma run_chain_frame L c b k :
  k <> field c -> (run_chain L c b).2 !! k = b !! k.
Proof.
  intros Hk. unfold run_chain.
  destruct (b !! field c) as [j|], (is_optional c);
    try reflexivity;
    destruct (run_items L (items c) _) as [n [j'|]]; simpl;
    try reflexivity; by rewrite lookup_insert_ne.
Qed.

Lemma run_chain_keys L c b k :
  is_Some ((run_chain L c b).2 !! k) -> is_Some (b !! k) \/ k = field c.
Proof.
  destruct (decide (k = field c)) as [->|Hk]; [by right|].
  rewrite run_chain_frame by done. by left.
Qed.

Lemma validate_frame L cs b k :
  k ∉ field <$> cs -> (validate L cs b).2 !! k = b !! k.
Proof.
  revert b. induction cs as [|c cs IH]; intros b Hk; [reflexivity|].
  rewrite fmap_cons in Hk. apply not_elem_of_cons in Hk as [Hc Hcs].
  simpl. destruct (run_chain L c b) as [e1 b1] eqn:E1.
  destruct (validate L cs b1) as [e2 b2] eqn:E2. simpl.
  change b2 with (e2, b2).2. rewrite <- E2, IH by done.
  change b1 with (e1, b1).2. rewrite <- E1. by apply run_chain_frame.
Qed.

Lemma validate_keys L cs b k :
  is_Some ((validate L cs b).2 !! k) -> is_Some (b !! k) \/ k ∈ field <$> cs.
Proof.
  revert b. induction cs as [|c cs IH]; intros b Hk; [by left|].
  simpl in Hk. destruct (run_chain L c b) as [e1 b1] eqn:E1.
  destruct (validate L cs b1) as [e2 b2] eqn:E2. simpl in Hk.
  change b2 with (e2, b2).2 in Hk. rewrite <- E2 in Hk.
  rewrite fmap_cons.
  apply IH in Hk as [Hk|Hk]; [|right; by right].
  change b1 with (e1, b1).2 in Hk. rewrite <- E1 in Hk.
  apply run_chain_keys in Hk as [Hk| ->]; [by left | right; left].
Qed.

(** ** Updates of one document *)

Lemma replace_first_split f d' coll d :
  find_one f coll = Some d ->
  exists pre post,
    coll = pre ++ d :: post
    /\ replace_first f d' coll = pre ++ d' :: post
    /\ find_one f pre = None
    /\ f d = true.
Proof.
  induction coll as [|x coll IH]; [discriminate|].
  simpl. destruct (f x) eqn:Ex.
  - intros [= ->]. by exists [], coll.
  - intros H. destruct (IH H) as (pre & post & -> & -> & Hpre & Hd).
    exists (x :: pre), post. simpl. by rewrite Ex.
Qed.

Lemma findOneAndUpdate_Some L env i sch k t q upd coll coll' d' :
  findOneAndUpdate L env i sch k t q upd coll = Ok (coll', Some d') ->
  exists qv set d,
    cast L t (JStr q) = Some qv
    /\ cast_set L sch upd = Ok set
    /\ db_fault env i = None
    /\ find_one (matches k qv) coll = Some d
    /\ apply_update L set (operator_part upd) d = Ok d'
    /\ coll' = replace_first (matches k qv) d' coll.
Proof.
  unfold findOneAndUpdate, cast_query, db. intros H.
  destruct (cast L t (JStr q)) as [qv|]; [|discriminate]. simpl in H.
  destruct (cast_set L sch upd) as [set|]; [|discriminate]. simpl in H.
  destruct (db_fault env i); [discriminate|].
  destruct (find_one (matches k qv) coll) as [d|] eqn:Ef; [|discriminate].
  destruct (apply_update L set (operator_part upd) d) as [d1|] eqn:Ea; [|discriminate].
  simpl in H. injection H as <- <-.
  by exists qv, set, d.
Qed.

Lemma cast_set_lookup L sch upd set k :
  cast_set L sch upd = Ok set ->
  set !! k = set_path L (sch !! k) (plain_part upd !! k).
Proof.
  unfold cast_set. intros H.
  destruct ((map_to_list _).*1); [|discriminate].
  injection H as <-. rewrite lookup_merge.
  destruct (sch !! k), (plain_part upd !! k); reflexivity.
Qed.

Lemma cast_set_casts L sch upd set k :
  cast_set L sch upd = Ok set ->
  cast_fails L (sch !! k) (plain_part upd !! k) = None.
Proof.
  unfold cast_set. intros H.
  destruct ((map_to_list _).*1) eqn:E; [|discriminate].
  apply fst_map_to_list_nil in E.
  pose proof (lookup_merge (cast_fails L) sch (plain_part upd) k) as Hk.
  rewrite E, lookup_empty in Hk.
  destruct (sch !! k), (plain_part upd !! k); simpl in *; try reflexivity; by symmetry.
Qed.

(** A path without [trim] and [lowercase] stores the cast value. *)
Lemma setters_none L p v :
  trim p = false -> lowercase p = false -> setters L p v = v.
Proof. intros Ht Hl. unfold setters. destruct v; try reflexivity. by rewrite Ht, Hl. Qed.

Lemma operator_part_plain (upd : body) :
  plain_body upd -> map_to_list (operator_part upd) = [].
Proof.
  intros Hp. apply map_to_list_empty_iff. unfold operator_part.
  apply map_empty_filter. intros k j Hk. simpl.
  rewrite (Hp k) by eauto. discriminate.
Qed.

Lemma plain_part_lookup (upd : body) k :
  plain_key k = true -> plain_part upd !! k = upd !! k.
Proof.
  intros Hk. unfold plain_part. rewrite map_lookup_filter.
  destruct (upd !! k) as [j|]; [|reflexivity]. simpl.
  rewrite option_guard_True by done. reflexivity.
Qed.

Lemma apply_update_plain L set (upd : body) d d' :
  plain_body upd ->
  apply_update L set (operator_part upd) d = Ok d' ->
  d' = set ∪ d.
Proof.
  intros Hp. unfold apply_update. rewrite (operator_part_plain upd Hp).
  destruct (keeps_id set d); [|discriminate]. by intros [= <-].
Qed.

(** ** C3: the timestamps of an updated project *)

Lemma ProjectSchema_updatedAt v : ProjectSchema v !! "updatedAt" = Some (plain TDate).
Proof. destruct v; reflexivity. Qed.

Lemma ProjectSchema_createdAt v : ProjectSchema v !! "createdAt" = Some created_at.
Proof. destruct v; reflexivity. Qed.

Lemma validateProject_plain v k :
  k ∈ field <$> validateProject v -> plain_key k = true.
Proof.
  intros H. destruct v; simpl in H;
    repeat (apply elem_of_cons in H as [->|H]; [reflexivity|]);
    by apply elem_of_nil in H.
Qed.

Lemma validateProject_not_createdAt v : "createdAt" ∉ field <$> validateProject v.
Proof.
  intros H. destruct v; simpl in H;
    repeat (apply elem_of_cons in H as [H|H]; [discriminate|]);
    by apply elem_of_nil in H.
Qed.

Lemma plain_body_check (b : body) :
  bool_decide (map_Forall (fun k _ => plain_key k = true) b) = true -> plain_body b.
Proof.
  intros H k [j Hk]. apply bool_decide_eq_true_1 in H. exact (H k j Hk).
Qed.

(** The update document of PUT /api/projects/:id has plain keys when
    the request body has. *)
Lemma put_update_plain L v env (b : body) :
  plain_body b ->
  plain_body (<["updatedAt" := JDate (t_now env)]> (validate L (validateProject v) b).2).
Proof.
  intros Hp k Hk.
  destruct (decide (k = "updatedAt")) as [->|Hne]; [reflexivity|].
  rewrite lookup_insert_ne in Hk by done.
  apply validate_keys in Hk as [Hk|Hk]; [by apply Hp|].
  by apply validateProject_plain in Hk.
Qed.

(** What a 200 of the update handler means. *)
Lemma put_project_200 L v env id b s s' p :
  serve L v env (PUT_project id b) s = (s', Responded (json 200 (Document p))) ->
  exists coll,
    findOneAndUpdate L env 0 (ProjectSchema v) "id" TNumber id
      (<["updatedAt" := JDate (t_now env)]> (validate L (validateProject v) b).2)
      (projects s) = Ok (coll, Some p)
    /\ s' = with_projects coll s.
Proof.
  unfold serve, route, put_project. intros H.
  destruct (validate L (validateProject v) b) as [errors b1] eqn:Ev.
  destruct (try_catch false s _) as [s2 st] eqn:Et.
  injection H as -> Hst.
  eapply try_catch_sent in Et; [|exact Hst|simpl; lia].
  destruct errors; [|discriminate].
  destruct (findOneAndUpdate _ _ _ _ _ _ _ _ _) as [[coll project]|] eqn:Eu;
    [|discriminate].
  simpl in Et. destruct project as [p'|]; [|discriminate].
  injection Et as <- <-. by exists coll.
Qed.

(** C3, as stated, fails: a project created at time 1000 and updated
    with a body that carries [createdAt: 5] is stored with [createdAt] 5
    afterwards. *)
Lemma update_createdAt_counterexample :
  projects first_created.1 = [sent_document first_created.2]
  /\ sent_document first_created.2 !! "createdAt" = Some (VDate 1000)
  /\ backdated.2 = Responded (json 200 (Document (sent_document backdated.2)))
  /\ projects backdated.1 = [sent_document backdated.2]
  /\ sent_document backdated.2 !! "createdAt" = Some (VDate 5).
Proof.
  repeat split; vm_compute; reflexivity.
Qed.

(** C3, amended. After a successful update whose body has plain field
    names only, the stored record [old] is replaced by the returned
    record [p]; [updatedAt] of [p] is the time of the update, hence not
    before the previous value when the clock did not go back; and
    [createdAt] is unchanged when the body has no [createdAt] field,
    else it is the cast of the body's. *)
Theorem update_timestamps L v env id b s s' p :
  serve L v env (PUT_project id b) s = (s', Responded (json 200 (Document p))) ->
  plain_body b ->
  exists old pre post,
    projects s = pre ++ old :: post
    /\ projects s' = pre ++ p :: post
    /\ p !! "updatedAt" = Some (VDate (t_now env))
    /\ (forall t, old !! "updatedAt" = Some (VDate t) -> t <= t_now env ->
        exists t', p !! "updatedAt" = Some (VDate t') /\ t <= t')
    /\ p !! "createdAt"
       = match b !! "createdAt" with
         | None => old !! "createdAt"
         | Some j => cast L TDate j
         end.
Proof.
  intros H Hplain.
  apply put_project_200 in H as (coll & Hu & ->).
  apply findOneAndUpdate_Some in Hu
    as (qv & set & old & Hq & Hset & Hdb & Hfind & Hap & ->).
  pose proof (put_update_plain L v env b Hplain) as Hupd.
  apply apply_update_plain in Hap; [|exact Hupd]. subst p.
  destruct (replace_first_split _ (set ∪ old) _ _ Hfind)
    as (pre & post & Hcoll & Hrep & _).
  assert (Hua : (set ∪ old) !! "updatedAt" = Some (VDate (t_now env))).
  { apply lookup_union_Some_l.
    rewrite (cast_set_lookup _ _ _ _ "updatedAt" Hset), ProjectSchema_updatedAt.
    rewrite plain_part_lookup by reflexivity.
    rewrite lookup_insert_eq. reflexivity. }
  exists old, pre, post. split; [exact Hcoll|]. split; [exact Hrep|].
  split; [exact Hua|]. split.
  - intros t _ Ht. by exists (t_now env).
  - pose proof (cast_set_lookup _ _ _ _ "createdAt" Hset) as Hl.
    pose proof (cast_set_casts _ _ _ _ "createdAt" Hset) as Hc.
    rewrite ProjectSchema_createdAt, plain_part_lookup in Hl, Hc by reflexivity.
    rewrite lookup_insert_ne in Hl, Hc by done.
    rewrite validate_frame in Hl, Hc by apply validateProject_not_createdAt.
    destruct (b !! "createdAt") as [j|];
      cbn [set_path cast_fails ptype created_at] in Hl, Hc.
    + destruct (cast L TDate j) as [w|]; [|discriminate].
      apply lookup_union_Some_l. rewrite Hl. cbn [fmap option_fmap option_map].
      by rewrite setters_none.
    + by apply lookup_union_r.
Qed.

Lemma update_timestamps_witness :
  exists old pre post,
    projects first_created.1 = pre ++ old :: post
    /\ projects updated.1 = pre ++ sent_document updated.2 :: post
    /\ sent_document updated.2 !! "updatedAt" = Some (VDate 3000)
    /\ (forall t, old !! "updatedAt" = Some (VDate t) -> t <= 3000 ->
        exists t', sent_document updated.2 !! "updatedAt" = Some (VDate t') /\ t <= t')
    /\ sent_document updated.2 !! "createdAt"
       = match Sample.project_body !! "createdAt" with
         | None => old !! "createdAt"
         | Some j => cast Sample.library TDate j
         end.
Proof.
  apply (update_timestamps Sample.library index_js (Sample.env 3000 Sample.oid1)
           "1" Sample.project_body first_created.1 updated.1
           (sent_document updated.2)).
  - vm_compute. reflexivity.
  - apply plain_body_check. vm_compute. reflexivity.
Defined.

(** ** C4: the [approved] flag of feedback *)

Lemma FeedbackSchema_approved v :
  FeedbackSchema v !! "approved"
  = Some {| ptype := TBoolean; required := false; trim := false;
            lowercase := false; default := DefaultConst (VBool false) |}.
Proof. destruct v; reflexivity. Qed.

Lemma validateFeedback_not_approved v : "approved" ∉ field <$> validateFeedback v.
Proof.
  intros H. destruct v; simpl in H;
    repeat (apply elem_of_cons in H as [H|H]; [discriminate|]);
    by apply elem_of_nil in H.
Qed.

(** How a handler's [try]/[catch] ends: with the response of the body,
    or in the state it started from. *)
Lemma try_catch_cases binds s r s' st :
  try_catch binds s r = (s', st) ->
  (exists resp, r = Ok (s', resp) /\ st = Sent resp)
  \/ (s' = s /\ forall resp, st <> Sent resp).
Proof.
  unfold try_catch. destruct r as [[s1 resp]|e]; intros [= <- <-].
  - left. by exists resp.
  - right. split; [reflexivity|]. intros resp. by destruct binds.
Qed.

(** What a 201 of the feedback creation means. *)
Lemma post_feedback_201 L v env b s s' f :
  route L v env (POST_feedback b) s = (s', Sent (json 201 (Document f))) ->
  f = new_document L env (FeedbackSchema v) (validate L (validateFeedback v) b).2
  /\ s' = with_feedbacks (feedbacks s ++ [f]) s.
Proof.
  unfold route, post_feedback.
  destruct (validate L (validateFeedback v) b) as [errors b1] eqn:Ev. intros H.
  apply try_catch_cases in H as [(resp & H & [= <-])|[_ H]];
    [|by destruct (H (json 201 (Document f)))].
  destruct errors; [|discriminate].
  destruct (save L env 0 _ b1 _ (feedbacks s)) as [coll|] eqn:Es; [|discriminate].
  simpl in H. injection H as <- <-.
  apply save_Ok in Es as (_ & _ & ->). done.
Qed.

Lemma settle_Responded L st resp :
  settle L st = Responded resp -> status resp <> 500 -> st = Sent resp.
Proof.
  destruct st as [r|e|e]; simpl.
  - by intros [= ->].
  - intros [= <-] H. by destruct H.
  - destruct (express5 L); [|discriminate]. intros [= <-] H. by destruct H.
Qed.

Lemma remove_first_subseteq f (coll : list doc) d :
  d ∈ remove_first f coll -> d ∈ coll.
Proof.
  induction coll as [|x coll IH]; simpl; [done|].
  destruct (f x); [by right|].
  intros [->|H]%elem_of_cons; [left | right; by apply IH].
Qed.

Lemma create_project_frame L v env errors b file s s' resp :
  create_project L v env errors b file s = Ok (s', resp) ->
  feedbacks s' = feedbacks s.
Proof.
  unfold create_project. intros H.
  destruct errors; [|by injection H as <- _].
  do 3 bind_step H. by injection H as <- _.
Qed.

(** Every request but the approval leaves the stored feedback records
    as they are; the creation adds the record it returns. *)
Lemma route_feedbacks L v env r s s' st d :
  route L v env r s = (s', st) ->
  (forall id b, r <> PUT_feedback_approve id b) ->
  d ∈ feedbacks s' ->
  d ∈ feedbacks s
  \/ exists b, r = POST_feedback b /\ st = Sent (json 201 (Document d)).
Proof.
  intros H Hr Hd. destruct r; simpl in H.
  - apply try_catch_cases in H as [(resp & H & _)|[-> _]]; [|by left].
    unfold db in H. destruct (db_fault env 0); [discriminate|].
    simpl in H. injection H as <- _. by left.
  - apply try_catch_cases in H as [(resp & H & _)|[-> _]]; [|by left].
    destruct (findOne _ _ _ _ _ _ _) as [[p|]|]; simpl in H; try discriminate;
      injection H as <- _; by left.
  - left. unfold post_projects in H. destruct v.
    + destruct (upload_single L env file s) as [[s1 name]|e] eqn:Eu.
      * apply upload_single_Ok in Eu as (_ & Hf & _).
        destruct (validate L _ b) as [errors b1].
        apply try_catch_cases in H as [(resp & H & _)|[-> _]]; [|by rewrite <- Hf].
        apply create_project_frame in H. by rewrite <- Hf, <- H.
      * by injection H as <- _.
    + destruct (validate L _ b) as [errors b1].
      apply try_catch_cases in H as [(resp & H & _)|[-> _]]; [|done].
      apply create_project_frame in H. by rewrite <- H.
  - left. unfold put_project in H.
    destruct (validate L _ b) as [errors b1].
    apply try_catch_cases in H as [(resp & H & _)|[-> _]]; [|done].
    destruct errors; [|by injection H as <- _].
    destruct (findOneAndUpdate _ _ _ _ _ _ _ _ _) as [[coll [p|]]|];
      simpl in H; try discriminate; by injection H as <- _.
  - left. apply try_catch_cases in H as [(resp & H & _)|[-> _]]; [|done].
    destruct (findOneAndDelete _ _ _ _ _ _ _) as [[coll [p|]]|];
      simpl in H; try discriminate; by injection H as <- _.
  - destruct st as [resp| |].
    2,3: left; unfold post_feedback in H;
      destruct (validate L _ b) as [errors b1];
      apply try_catch_cases in H as [(resp & H & ?)|[-> _]]; [discriminate|done].
    unfold post_feedback in H.
    destruct (validate L _ b) as [errors b1] eqn:Ev.
    apply try_catch_cases in H as [(resp' & H & [= <-])|[_ H]]; [|by destruct (H resp)].
    destruct errors; [|injection H as <- _; by left].
    destruct (save L env 0 _ b1 _ (feedbacks s)) as [coll|] eqn:Es; [|discriminate].
    simpl in H. injection H as <- <-.
    apply save_Ok in Es as (_ & _ & ->). simpl in Hd.
    apply elem_of_app in Hd as [Hd|Hd]; [by left|].
    apply list_elem_of_singleton in Hd. subst d.
    right. by exists b.
  - apply try_catch_cases in H as [(resp & H & _)|[-> _]]; [|by left].
    unfold db in H. destruct (db_fault env 0); [discriminate|].
    simpl in H. injection H as <- _. by left.
  - left. unfold post_hire_me in H.
    destruct (validate L _ b) as [errors b1].
    apply try_catch_cases in H as [(resp & H & _)|[-> _]]; [|done].
    destruct errors; [|by injection H as <- _].
    destruct (save _ _ _ _ _ _ _) as [coll|]; [|discriminate]. simpl in H.
    by injection H as <- _.
  - apply try_catch_cases in H as [(resp & H & _)|[-> _]]; [|by left].
    unfold db in H. destruct (db_fault env 0); [discriminate|].
    simpl in H. injection H as <- _. by left.
  - by destruct (Hr id b).
  - left. destruct v; [|by injection H as <- _].
    apply try_catch_cases in H as [(resp & H & _)|[-> _]]; [|done].
    unfold deleteOne in H.
    destruct (cast_query _ _ _ _) as [qv|]; [|discriminate]. simpl in H.
    unfold db in H. destruct (db_fault env 0); [discriminate|]. simpl in H.
    injection H as <- _. simpl in Hd. by apply remove_first_subseteq in Hd.
Qed.

(** C4, as stated, fails: a creation whose body carries
    [approved: true] answers 201 with a record that is approved, and
    stores it. *)
Lemma create_approved_counterexample :
  preapproved.2 = Responded (json 201 (Document (sent_document preapproved.2)))
  /\ sent_document preapproved.2 !! "approved" = Some (VBool true)
  /\ feedbacks preapproved.1 = [sent_document preapproved.2].
Proof.
  repeat split; vm_compute; reflexivity.
Qed.

(** C4, amended. A feedback record returned by a successful creation
    has [approved] false when the request body has no [approved] field,
    else the cast of the body's; and a request other than the approval
    leaves every stored feedback record as it is, the only new record
    being the one a creation returns. *)
Theorem feedback_approved L v env r s s' o :
  serve L v env r s = (s', o) ->
  (forall b f,
      r = POST_feedback b ->
      o = Responded (json 201 (Document f)) ->
      f !! "approved"
      = match b !! "approved" with
        | None => Some (VBool false)
        | Some j => cast L TBoolean j
        end)
  /\ ((forall id b, r <> PUT_feedback_approve id b) ->
      forall d, d ∈ feedbacks s' ->
        d ∈ feedbacks s
        \/ exists b, r = POST_feedback b /\ o = Responded (json 201 (Document d))).
Proof.
  unfold serve. destruct (route L v env r s) as [s1 st] eqn:Er.
  intros [= <- <-]. split.
  - intros b f -> Ho.
    apply settle_Responded in Ho; [|simpl; lia]. subst st.
    apply post_feedback_201 in Er as [-> _].
    rewrite new_document_lookup, FeedbackSchema_approved.
    rewrite validate_frame by apply validateFeedback_not_approved.
    destruct (b !! "approved") as [j|]; [|reflexivity].
    cbn [init_path ptype].
    destruct (cast L TBoolean j) as [w|]; [|reflexivity].
    cbn [fmap option_fmap option_map].
    by rewrite setters_none.
  - intros Hr d Hd.
    destruct (route_feedbacks L v env r s s1 st d Er Hr Hd) as [H|(b & -> & ->)];
      [by left|].
    right. by exists b.
Qed.

Lemma feedback_approved_witness :
  sent_document feedback_created.2 !! "approved" = Some (VBool false)
  /\ forall d, d ∈ feedbacks feedback_created.1 ->
       d ∈ feedbacks Sample.empty
       \/ exists b, POST_feedback Sample.feedback_body = POST_feedback b
            /\ feedback_created.2 = Responded (json 201 (Document d)).
Proof.
  pose proof (feedback_approved Sample.library index_js
                (Sample.env 1000 Sample.oid1)
                (POST_feedback Sample.feedback_body) Sample.empty
                feedback_created.1 feedback_created.2) as H.
  destruct H as [H1 H2]; [vm_compute; reflexivity|].
  split.
  - apply (H1 Sample.feedback_body); [reflexivity|].
    vm_compute. reflexivity.
  - apply H2. intros id b. discriminate.
Defined.

(** ** C5: deleting feedback that is not there *)

(** C5. The code at the failing input: the collection holds one record,
    the identifier of the request is another one, and the answer is 200
    with the result of [deleteOne], whose [deletedCount] is 0. *)
Lemma delete_unknown_feedback :
  find_one (matches "_id" (VOid Sample.oid2)) (feedbacks feedback_created.1) = None
  /\ unknown_deleted
     = (feedback_created.1,
        Responded (json 200 (Deleted {| acknowledged := true; deletedCount := 0 |}))).
Proof.
  split; vm_compute; reflexivity.
Qed.

(** The handler tests [acknowledged], which is true of every result, so
    it never answers 404. *)
Lemma delete_feedback_never_404 L env id s :
  is_404 (serve L index_js env (DELETE_feedback id) s).2 = false.
Proof.
  unfold serve, route, delete_feedback, deleteOne, db.
  destruct (cast_query L "_id" TObjectId id) as [qv|e]; simpl.
  - destruct (db_fault env 0); simpl; [|reflexivity].
    destruct (express5 L); reflexivity.
  - destruct (express5 L); reflexivity.
Qed.

(** ** C6 and C10: approving feedback *)

Lemma approve_cast_set L v :
  cast_set L (FeedbackSchema v) {[ "approved" := JBool true ]}
  = Ok {[ "approved" := VBool true ]}.
Proof. destruct v; vm_compute; reflexivity. Qed.

Lemma approve_no_operator :
  map_to_list (operator_part {[ "approved" := JBool true ]}) = [].
Proof. vm_compute. reflexivity. Qed.

Lemma matches_insert_ne k k' q v (d : doc) :
  k <> k' -> matches k q (<[k' := v]> d) = matches k q d.
Proof. intros H. unfold matches. by rewrite lookup_insert_ne. Qed.

Lemma find_one_replace_first f d' coll d :
  find_one f coll = Some d -> f d' = true ->
  find_one f (replace_first f d' coll) = Some d'
  /\ replace_first f d' (replace_first f d' coll) = replace_first f d' coll.
Proof.
  intros Hf Hd'. induction coll as [|x coll IH]; [discriminate|].
  simpl in *. destruct (f x) eqn:Ex; simpl.
  - by rewrite Hd'.
  - rewrite Ex. destruct (IH Hf) as [-> ->]. done.
Qed.

Lemma find_one_true f coll (d : doc) : find_one f coll = Some d -> f d = true.
Proof.
  induction coll as [|x coll IH]; [discriminate|]. simpl.
  destruct (f x) eqn:Ex; [by intros [= <-] | exact IH].
Qed.

(** The approval of an existing record: what the query does. *)
Lemma approve_update L v env id q f coll :
  cast L TObjectId (JStr id) = Some q ->
  find_one (matches "_id" q) coll = Some f ->
  db_fault env 0 = None ->
  findOneAndUpdate L env 0 (FeedbackSchema v) "_id" TObjectId id
    {[ "approved" := JBool true ]} coll
  = Ok (replace_first (matches "_id" q) (<["approved" := VBool true]> f) coll,
        Some (<["approved" := VBool true]> f)).
Proof.
  intros Hq Hf Hdb. unfold findOneAndUpdate, cast_query, db.
  rewrite Hq, approve_cast_set, Hdb. cbn [mbind result_bind].
  rewrite Hf. unfold apply_update, keeps_id.
  rewrite lookup_singleton_ne by done. rewrite approve_no_operator.
  cbn [mbind result_bind]. by rewrite <- insert_union_singleton_l.
Qed.

(** C6. Approving an existing feedback record twice: the first request
    answers 200 with the stored record with [approved] set to true, and
    puts that record in the place of the stored one, so that it is the
    record of the identifier afterwards; the second request answers 200
    with the same record and leaves the state, and so the record, as
    the first one left it. *)
Theorem approve_twice L v env1 env2 id b1 b2 s q f :
  cast L TObjectId (JStr id) = Some q ->
  find_one (matches "_id" q) (feedbacks s) = Some f ->
  db_fault env1 0 = None ->
  db_fault env2 0 = None ->
  exists s1 f1,
    serve L v env1 (PUT_feedback_approve id b1) s
      = (s1, Responded (json 200 (Document f1)))
    /\ f1 !! "approved" = Some (VBool true)
    /\ serve L v env2 (PUT_feedback_approve id b2) s1
      = (s1, Responded (json 200 (Document f1)))
    /\ f1 = <["approved" := VBool true]> f
    /\ find_one (matches "_id" q) (feedbacks s1) = Some f1
    /\ exists pre post,
         feedbacks s = pre ++ f :: post
         /\ feedbacks s1 = pre ++ f1 :: post
         /\ find_one (matches "_id" q) pre = None.
Proof.
  intros Hq Hf Hdb1 Hdb2.
  set (f1 := <["approved" := VBool true]> f).
  exists (with_feedbacks (replace_first (matches "_id" q) f1 (feedbacks s)) s), f1.
  assert (Hm : matches "_id" q f1 = true).
  { unfold f1. rewrite matches_insert_ne by done. by eapply find_one_true. }
  destruct (find_one_replace_first _ f1 _ _ Hf Hm) as [Hf1 Hrep].
  split; [|split; [|split; [|split; [|split]]]].
  - unfold serve, route, approve_feedback.
    rewrite (approve_update L v env1 id q f _ Hq Hf Hdb1). reflexivity.
  - unfold f1. apply lookup_insert_eq.
  - unfold serve, route, approve_feedback. simpl feedbacks.
    rewrite (approve_update L v env2 id q f1 _ Hq Hf1 Hdb2).
    assert (E : <["approved" := VBool true]> f1 = f1)
      by (unfold f1; apply insert_insert_eq).
    rewrite E, Hrep. reflexivity.
  - reflexivity.
  - exact Hf1.
  - destruct (replace_first_split _ f1 _ _ Hf) as (pre & post & Hc & Hr & Hpre & _).
    by exists pre, post.
Qed.

Lemma approve_twice_witness :
  exists s1 f1,
    serve Sample.library index_js (Sample.env 2000 Sample.oid2)
      (PUT_feedback_approve Sample.oid1 ∅) feedback_created.1
      = (s1, Responded (json 200 (Document f1)))
    /\ f1 !! "approved" = Some (VBool true)
    /\ serve Sample.library index_js (Sample.env 3000 Sample.oid2)
         (PUT_feedback_approve Sample.oid1 ∅) s1
      = (s1, Responded (json 200 (Document f1)))
    /\ f1 = <["approved" := VBool true]> (sent_document feedback_created.2)
    /\ find_one (matches "_id" (VOid Sample.oid1)) (feedbacks s1) = Some f1
    /\ exists pre post,
         feedbacks feedback_created.1
         = pre ++ sent_document feedback_created.2 :: post
         /\ feedbacks s1 = pre ++ f1 :: post
         /\ find_one (matches "_id" (VOid Sample.oid1)) pre = None.
Proof.
  apply (approve_twice Sample.library index_js _ _ Sample.oid1 ∅ ∅
           feedback_created.1 (VOid Sample.oid1)
           (sent_document feedback_created.2)).
  - vm_compute. reflexivity.
  - vm_compute. reflexivity.
  - reflexivity.
  - reflexivity.
Defined.

(** What a 200 of the approval means. *)
Lemma approve_200 L v env id b s s' f' :
  serve L v env (PUT_feedback_approve id b) s
    = (s', Responded (json 200 (Document f'))) ->
  exists q f,
    find_one (matches "_id" q) (feedbacks s) = Some f
    /\ f' = <["approved" := VBool true]> f
    /\ s' = with_feedbacks (replace_first (matches "_id" q) f' (feedbacks s)) s.
Proof.
  unfold serve, route, approve_feedback. intros H.
  destruct (try_catch false s _) as [s2 st] eqn:Et.
  injection H as -> Hst.
  eapply try_catch_sent in Et; [|exact Hst|simpl; lia].
  bind_step Et. destruct a as [coll [p|]]; [|discriminate].
  injection Et as <- <-.
  apply findOneAndUpdate_Some in E
    as (qv & set & d & Hq & Hset & Hdb & Hfind & Hap & ->).
  rewrite approve_cast_set in Hset. injection Hset as <-.
  unfold apply_update in Hap. rewrite approve_no_operator in Hap.
  destruct (keeps_id _ d); [|discriminate]. injection Hap as <-.
  exists qv, d. by rewrite <- insert_union_singleton_l.
Qed.

(** C10. A successful approval replaces one stored feedback record by
    the returned one, which differs from it in [approved] only; the
    other collections and the upload directory are untouched; and the
    answer does not depend on the request body. *)
Theorem approve_frame L v env id b s s' f' :
  serve L v env (PUT_feedback_approve id b) s
    = (s', Responded (json 200 (Document f'))) ->
  (exists f pre post,
      feedbacks s = pre ++ f :: post
      /\ feedbacks s' = pre ++ f' :: post
      /\ f' !! "approved" = Some (VBool true)
      /\ forall k, k <> "approved" -> f' !! k = f !! k)
  /\ projects s' = projects s
  /\ hire_requests s' = hire_requests s
  /\ uploads s' = uploads s
  /\ forall b', serve L v env (PUT_feedback_approve id b') s
               = serve L v env (PUT_feedback_approve id b) s.
Proof.
  intros H. apply approve_200 in H as (q & f & Hf & -> & ->).
  destruct (replace_first_split _ (<["approved" := VBool true]> f) _ _ Hf)
    as (pre & post & Hcoll & Hrep & _).
  split; [|by repeat split].
  exists f, pre, post. split; [exact Hcoll|]. split; [exact Hrep|].
  split; [apply lookup_insert_eq|].
  intros k Hk. by rewrite lookup_insert_ne.
Qed.

Lemma approve_frame_witness :
  exists f pre post,
    feedbacks feedback_created.1 = pre ++ f :: post
    /\ feedbacks approved_once.1 = pre ++ sent_document approved_once.2 :: post
    /\ sent_document approved_once.2 !! "approved" = Some (VBool true)
    /\ forall k, k <> "approved" -> sent_document approved_once.2 !! k = f !! k.
Proof.
  apply (approve_frame Sample.library index_js (Sample.env 2000 Sample.oid2)
           Sample.oid1 Sample.feedback_body feedback_created.1 approved_once.1
           (sent_document approved_once.2)).
  vm_compute. reflexivity.
Defined.

(** ** C7: uploads that multer refuses *)

Lemma existsb_eqb_false (m : string) (l : list string) :
  m ∉ l -> existsb (String.eqb m) l = false.
Proof.
  induction l as [|x l IH]; [reflexivity|].
  intros [Hx Hl]%not_elem_of_cons. simpl.
  rewrite (proj2 (String.eqb_neq m x)) by done. by apply IH.
Qed.

(** C7. A creation request whose file has a content type outside the
    allowed ones, or a size over the limit, ends in the error
    middleware, and the state (the collection of projects and the
    upload directory with it) is as before. *)
Theorem rejected_upload L env b f s :
  mimetype f ∉ allowedTypes \/ fileSize < size f ->
  exists e,
    serve L index_js env (POST_projects b (Some f)) s
    = (s, Responded (json 500 (Failure "Something went wrong!" (message L e)))).
Proof.
  intros H. unfold serve, route, post_projects, upload_single.
  destruct (negb (String.eqb (fieldname f) "img"));
    [by exists (MulterError LIMIT_UNEXPECTED_FILE)|].
  unfold fileFilter.
  destruct (existsb (String.eqb (mimetype f)) allowedTypes) eqn:Ea.
  - destruct H as [H|H]; [by rewrite (existsb_eqb_false _ _ H) in Ea|].
    cbn [mbind result_bind].
    assert (too_large L f = true) as ->.
    { unfold too_large. destruct (refuses_at_limit L); lia. }
    by exists (MulterError LIMIT_FILE_SIZE).
  - by exists (JsError "Invalid file type. Only JPEG, PNG and GIF allowed.").
Qed.

Lemma not_allowed_check (m : string) :
  existsb (String.eqb m) allowedTypes = false -> m ∉ allowedTypes.
Proof.
  intros H Hin. unfold allowedTypes in *. simpl in H.
  repeat (apply elem_of_cons in Hin as [->|Hin];
          [rewrite String.eqb_refl in H; simpl in H;
           rewrite ?orb_true_r in H; discriminate|]).
  by apply elem_of_nil in Hin.
Qed.

Lemma rejected_upload_witness :
  (exists e,
      serve Sample.library index_js (Sample.env 1000 Sample.oid1)
        (POST_projects Sample.project_body (Some pdf)) first_created.1
      = (first_created.1,
         Responded (json 500 (Failure "Something went wrong!"
                                (message Sample.library e)))))
  /\ (exists e,
         serve Sample.library index_js (Sample.env 1000 Sample.oid1)
           (POST_projects Sample.project_body (Some huge_png)) first_created.1
         = (first_created.1,
            Responded (json 500 (Failure "Something went wrong!"
                                   (message Sample.library e))))).
Proof.
  split.
  - apply (rejected_upload Sample.library (Sample.env 1000 Sample.oid1)
             Sample.project_body pdf first_created.1).
    left. apply not_allowed_check. vm_compute. reflexivity.
  - apply (rejected_upload Sample.library (Sample.env 1000 Sample.oid1)
             Sample.project_body huge_png first_created.1).
    right. vm_compute. reflexivity.
Defined.

(** ** C8: errors in the handlers *)

(** C8. The code at the failing input: the listing of projects while
    the database call rejects with "connection lost".  The [catch]
    block calls [next], which the handler does not bind: under express 4
    no response is sent, under express 5 the 500 carries the text of the
    ReferenceError, not that of the database error. *)
Lemma get_projects_db_error L v s :
  serve L v db_down GET_projects s
  = (s, if express5 L
        then Responded (json 500 (Failure "Something went wrong!" "next is not defined"))
        else Unanswered).
Proof.
  unfold serve, route, get_projects, db. simpl.
  destruct (express5 L); reflexivity.
Qed.

(** In the handlers that do not bind [next], the [catch] block never
    reaches the error middleware with the error it caught. *)
Lemma try_catch_unbound s r s' st e :
  try_catch false s r = (s', st) -> st <> Next e.
Proof.
  unfold try_catch. destruct r as [[s1 resp]|e']; intros [= <- <-]; discriminate.
Qed.

(** An error is passed to [next] in one route only: the creation of a
    project in src/index.js, by multer or by the handler. *)
Lemma only_one_route_forwards L v env r s s' e :
  route L v env r s = (s', Next e) ->
  v = index_js /\ exists b file, r = POST_projects b file.
Proof.
  intros H.
  assert (Hu : forall s0 r0, try_catch false s0 r0 = (s', Next e) -> False)
    by (intros s0 r0 H0; by apply (try_catch_unbound _ _ _ _ e) in H0).
  destruct r; simpl in H; try (exfalso; exact (Hu _ _ H)).
  - destruct v; [split; [reflexivity | by exists b, file]|].
    unfold post_projects in H.
    destruct (validate L _ b) as [errors b1]. destruct (Hu _ _ H).
  - unfold put_project in H. destruct (validate L _ b) as [errors b1].
    destruct (Hu _ _ H).
  - unfold post_feedback in H. destruct (validate L _ b) as [errors b1].
    destruct (Hu _ _ H).
  - unfold post_hire_me in H. destruct (validate L _ b) as [errors b1].
    destruct (Hu _ _ H).
  - destruct v; [destruct (Hu _ _ H) | discriminate].
Qed.

(** The one handler that binds [next] does what the others attempt. *)
Lemma post_projects_db_error L s :
  exists s1,
    serve L index_js db_down
      (POST_projects Sample.project_body (Some Sample.png)) s
    = (s1, Responded (json 500 (Failure "Something went wrong!" "connection lost"))).
Proof.
  eexists. unfold serve, route, post_projects.
  assert (Hu : upload_single L db_down (Some Sample.png) s
               = Ok (with_upload "1000-a.png" s, Some "1000-a.png"))
    by (unfold upload_single, too_large; destruct (refuses_at_limit L); reflexivity).
  rewrite Hu.
  assert (E : (validate L (validateProject index_js) Sample.project_body).1 = [])
    by (vm_compute; reflexivity).
  destruct (validate L (validateProject index_js) Sample.project_body)
    as [errors b1].
  simpl in E. subst errors. reflexivity.
Qed.

(** ** C9: the [img] field of a creation with upload *)

(** A required chain that starts with [notEmpty()] reports its field
    when the body has nothing there. *)
Lemma validate_reports L cs b c rest :
  c ∈ cs ->
  NoDup (field <$> cs) ->
  is_optional c = false ->
  items c = NotEmpty :: rest ->
  blank (b !! field c) ->
  field c ∈ (validate L cs b).1.
Proof.
  intros Hc Hnd Hopt Hits. revert b.
  induction cs as [|x cs IH]; intros b Hb; [by apply elem_of_nil in Hc|].
  rewrite fmap_cons in Hnd. apply NoDup_cons in Hnd as [Hx Hnd].
  simpl. destruct (run_chain L x b) as [e1 b1] eqn:E1.
  destruct (validate L cs b1) as [e2 b2] eqn:E2. simpl.
  apply elem_of_app.
  apply elem_of_cons in Hc as [<-|Hc].
  - left. unfold run_chain in E1. rewrite Hopt, Hits in E1.
    destruct Hb as [Hb|[Hb|Hb]]; rewrite Hb in E1; simpl in E1;
      destruct (run_items L rest _) as [m v2]; injection E1 as <- _; left.
  - right. change e2 with (e2, b2).1. rewrite <- E2.
    apply IH; [done..|].
    change b1 with (e1, b1).2. rewrite <- E1.
    rewrite run_chain_frame; [done|].
    intros Heq. apply Hx. rewrite <- Heq. by apply list_elem_of_fmap_2.
Qed.

Lemma validateProject_img L v b :
  blank (b !! "img") ->
  "img" ∈ (validate L (validateProject v) b).1.
Proof.
  intros Hb.
  apply (validate_reports L (validateProject v) b img_chain []);
    try done.
  - destruct v; simpl; repeat (first [by left | right]).
  - destruct v; apply (bool_decide_unpack _); vm_compute; exact I.
Qed.

(** C9, as stated, fails: a creation request without the text field
    [img] and with a file that the upload middleware refuses is answered
    500 by the error middleware, not 400. *)
Lemma missing_img_counterexample :
  delete "img" Sample.project_body !! "img" = None
  /\ serve Sample.library index_js (Sample.env 1000 Sample.oid1)
       (POST_projects (delete "img" Sample.project_body) (Some pdf)) Sample.empty
     = (Sample.empty,
        Responded (json 500 (Failure "Something went wrong!"
                               "Invalid file type. Only JPEG, PNG and GIF allowed."))).
Proof.
  split; vm_compute; reflexivity.
Qed.

(** C9, amended. In src/index.js, a creation request that passes the
    upload middleware (no file part, or an accepted image under [img])
    and whose body has no text field [img], or an empty one, is answered
    400 with a validation error for [img]; no project is stored. *)
Theorem missing_img_rejected L env b file s s1 name :
  upload_single L env file s = Ok (s1, name) ->
  blank (b !! "img") ->
  exists errors,
    serve L index_js env (POST_projects b file) s
    = (s1, Responded (json 400 (Errors errors)))
    /\ "img" ∈ errors
    /\ projects s1 = projects s.
Proof.
  intros Hu Hb.
  pose proof (validateProject_img L index_js b Hb) as Herr.
  unfold serve, route, post_projects. rewrite Hu.
  destruct (validate L (validateProject index_js) b) as [errors b1].
  simpl in Herr. exists errors.
  destruct errors as [|e errors]; [by apply elem_of_nil in Herr|].
  split; [reflexivity|]. split; [exact Herr|].
  by apply upload_single_Ok in Hu as [? _].
Qed.

Lemma missing_img_rejected_witness :
  exists errors,
    no_img = (no_img.1, Responded (json 400 (Errors errors)))
    /\ "img" ∈ errors
    /\ projects no_img.1 = projects Sample.empty.
Proof.
  apply (missing_img_rejected Sample.library (Sample.env 1000 Sample.oid1)
           (delete "img" Sample.project_body) (Some Sample.png) Sample.empty
           no_img.1 (Some "1000-a.png")).
  - vm_compute. reflexivity.
  - left. vm_compute. reflexivity.
Defined.

(** * Further properties of the routes *)

(** ** What a request leaves alone *)

Lemma create_project_others L v env errors b file s s' resp :
  create_project L v env errors b file s = Ok (s', resp) ->
  feedbacks s' = feedbacks s /\ hire_requests s' = hire_requests s
  /\ uploads s' = uploads s.
Proof.
  unfold create_project. intros H.
  destruct errors; [|by injection H as <- _].
  do 3 bind_step H. by injection H as <- _.
Qed.

Lemma upload_single_others L env file s s1 name :
  upload_single L env file s = Ok (s1, name) ->
  feedbacks s1 = feedbacks s /\ hire_requests s1 = hire_requests s.
Proof. intros H. by apply upload_single_Ok in H as (_ & ? & ?). Qed.

Lemma serve_route L v env r s :
  serve L v env r s = ((route L v env r s).1, settle L (route L v env r s).2).
Proof. unfold serve. by destruct (route L v env r s). Qed.

Lemma route_untouched L v env r s :
  untouched r s (route L v env r s).1.
Proof.
  destruct (route L v env r s) as [s' st] eqn:H. simpl.
  destruct r; simpl in H; simpl.
  - apply try_catch_cases in H as [(resp & H & _)|[-> _]]; [|done].
    bind_step H. by injection H as <- _.
  - apply try_catch_cases in H as [(resp & H & _)|[-> _]]; [|done].
    bind_step H. destruct a; by injection H as <- _.
  - unfold post_projects in H. destruct v.
    + destruct (upload_single L env file s) as [[s1 name]|e] eqn:Eu;
        [|by injection H as <- _].
      apply upload_single_others in Eu as [Hf Hh].
      destruct (validate L _ b) as [errors b1].
      apply try_catch_cases in H as [(resp & H & _)|[-> _]]; [|done].
      apply create_project_others in H as (-> & -> & _). done.
    + destruct (validate L _ b) as [errors b1].
      apply try_catch_cases in H as [(resp & H & _)|[-> _]]; [|done].
      by apply create_project_others in H as (-> & -> & _).
  - unfold put_project in H. destruct (validate L _ b) as [errors b1].
    apply try_catch_cases in H as [(resp & H & _)|[-> _]]; [|done].
    destruct errors; [|by injection H as <- _].
    bind_step H. destruct a as [coll [p|]]; by injection H as <- _.
  - apply try_catch_cases in H as [(resp & H & _)|[-> _]]; [|done].
    bind_step H. destruct a as [coll [p|]]; by injection H as <- _.
  - unfold post_feedback in H. destruct (validate L _ b) as [errors b1].
    apply try_catch_cases in H as [(resp & H & _)|[-> _]]; [|done].
    destruct errors; [|by injection H as <- _].
    bind_step H. by injection H as <- _.
  - apply try_catch_cases in H as [(resp & H & _)|[-> _]]; [|done].
    bind_step H. by injection H as <- _.
  - unfold post_hire_me in H. destruct (validate L _ b) as [errors b1].
    apply try_catch_cases in H as [(resp & H & _)|[-> _]]; [|done].
    destruct errors; [|by injection H as <- _].
    bind_step H. by injection H as <- _.
  - apply try_catch_cases in H as [(resp & H & _)|[-> _]]; [|done].
    bind_step H. by injection H as <- _.
  - apply try_catch_cases in H as [(resp & H & _)|[-> _]]; [|done].
    bind_step H. destruct a as [coll [p|]]; by injection H as <- _.
  - destruct v; [|by injection H as <- _].
    apply try_catch_cases in H as [(resp & H & _)|[-> _]]; [|done].
    bind_step H. destruct a as [coll res].
    destruct (negb (acknowledged res)); by injection H as <- _.
Qed.

(** X1. Each request touches the collection of its own resource only, the
    reading requests nothing at all, and only the creation of a project
    writes to the upload directory: whatever the request carries and
    however it ends. *)
Theorem requests_are_isolated L v env r s :
  untouched r s (serve L v env r s).1.
Proof.
  rewrite serve_route. cbn [fst]. apply route_untouched.
Qed.

(** ** Requests that fail *)

Lemma succeeded_sent L st :
  succeeded (settle L st) = false ->
  forall resp, st = Sent resp -> status resp <> 200 /\ status resp <> 201.
Proof.
  intros H resp ->. simpl in H. apply orb_false_iff in H as [H1 H2]. lia.
Qed.

Lemma create_project_failed L v env errors b file s s' resp :
  create_project L v env errors b file s = Ok (s', resp) ->
  status resp <> 201 -> s' = s.
Proof.
  unfold create_project. intros H Hne.
  destruct errors; [|by injection H as <- _].
  do 3 bind_step H. injection H as <- <-. by destruct Hne.
Qed.

Lemma deleteOne_Ok L env i k t id coll coll' res :
  deleteOne L env i k t id coll = Ok (coll', res) ->
  exists q,
    cast L t (JStr id) = Some q
    /\ db_fault env i = None
    /\ coll' = remove_first (matches k q) coll
    /\ res = {| acknowledged := true;
                deletedCount :=
                  match find_one (matches k q) coll with
                  | Some _ => 1
                  | None => 0
                  end |}.
Proof.
  unfold deleteOne, cast_query, db. intros H.
  destruct (cast L t (JStr id)) as [q|]; [|discriminate].
  cbn [mbind result_bind] in H.
  destruct (db_fault env i); [discriminate|].
  injection H as <- <-. by exists q.
Qed.

(** X2. A request that is not answered 200 or 201 (a 400, a 404, a 500, or
    no answer at all) leaves the three collections as they were. *)
Theorem failed_requests_keep_data L v env r s s' o :
  serve L v env r s = (s', o) ->
  succeeded o = false ->
  projects s' = projects s /\ feedbacks s' = feedbacks s
  /\ hire_requests s' = hire_requests s.
Proof.
  rewrite serve_route. destruct (route L v env r s) as [s1 st] eqn:H.
  simpl. intros [= <- <-] Hs.
  pose proof (succeeded_sent L st Hs) as Hst. clear Hs.
  assert (Hok : forall resp, st = Sent resp ->
                  status resp = 200 \/ status resp = 201 -> False)
    by (intros resp E [?|?]; destruct (Hst resp E); done).
  clear Hst.
  destruct r; simpl in H.
  - apply try_catch_cases in H as [(resp & H & _)|[-> _]]; [|done].
    bind_step H. by injection H as <- _.
  - apply try_catch_cases in H as [(resp & H & _)|[-> _]]; [|done].
    bind_step H. destruct a; by injection H as <- _.
  - unfold post_projects in H. destruct v.
    + destruct (upload_single L env file s) as [[s2 name]|e] eqn:Eu;
        [|by injection H as <- _].
      apply upload_single_Ok in Eu as (Hp & Hf & Hh).
      destruct (validate L _ b) as [errors b1].
      apply try_catch_cases in H as [(resp & H & ->)|[-> _]]; [|done].
      apply create_project_failed in H; [by subst|].
      intros E. apply (Hok resp); [done | by right].
    + destruct (validate L _ b) as [errors b1].
      apply try_catch_cases in H as [(resp & H & ->)|[-> _]]; [|done].
      apply create_project_failed in H; [by subst|].
      intros E. apply (Hok resp); [done | by right].
  - unfold put_project in H. destruct (validate L _ b) as [errors b1].
    apply try_catch_cases in H as [(resp & H & ->)|[-> _]]; [|done].
    destruct errors; [|by injection H as <- _].
    bind_step H. destruct a as [coll [p|]]; [|by injection H as <- _].
    injection H as <- <-. destruct (Hok _ eq_refl). by left.
  - apply try_catch_cases in H as [(resp & H & ->)|[-> _]]; [|done].
    bind_step H. destruct a as [coll [p|]]; [|by injection H as <- _].
    injection H as <- <-. destruct (Hok _ eq_refl). by left.
  - unfold post_feedback in H. destruct (validate L _ b) as [errors b1].
    apply try_catch_cases in H as [(resp & H & ->)|[-> _]]; [|done].
    destruct errors; [|by injection H as <- _].
    bind_step H. injection H as <- <-. destruct (Hok _ eq_refl). by right.
  - apply try_catch_cases in H as [(resp & H & _)|[-> _]]; [|done].
    bind_step H. by injection H as <- _.
  - unfold post_hire_me in H. destruct (validate L _ b) as [errors b1].
    apply try_catch_cases in H as [(resp & H & ->)|[-> _]]; [|done].
    destruct errors; [|by injection H as <- _].
    bind_step H. injection H as <- <-. destruct (Hok _ eq_refl). by right.
  - apply try_catch_cases in H as [(resp & H & _)|[-> _]]; [|done].
    bind_step H. by injection H as <- _.
  - apply try_catch_cases in H as [(resp & H & ->)|[-> _]]; [|done].
    bind_step H. destruct a as [coll [p|]]; [|by injection H as <- _].
    injection H as <- <-. destruct (Hok _ eq_refl). by left.
  - destruct v; [|by injection H as <- _].
    apply try_catch_cases in H as [(resp & H & ->)|[-> _]]; [|done].
    bind_step H. destruct a as [coll res].
    apply deleteOne_Ok in E as (q & _ & _ & _ & ->).
    cbn [acknowledged negb] in H.
    injection H as <- <-. destruct (Hok _ eq_refl). by left.
Qed.

Lemma failed_requests_keep_data_witness :
  projects no_img.1 = projects Sample.empty
  /\ feedbacks no_img.1 = feedbacks Sample.empty
  /\ hire_requests no_img.1 = hire_requests Sample.empty.
Proof.
  apply (failed_requests_keep_data Sample.library index_js
           (Sample.env 1000 Sample.oid1)
           (POST_projects (delete "img" Sample.project_body) (Some Sample.png))
           Sample.empty no_img.1 no_img.2).
  - apply surjective_pairing.
  - vm_compute. reflexivity.
Defined.

(** X3. Hire requests are only ever appended: after any request, the
    collection starts with what it held before. *)
Theorem hire_requests_append_only L v env r s :
  hire_requests s `prefix_of` hire_requests (serve L v env r s).1.
Proof.
  rewrite serve_route. cbn [fst].
  pose proof (route_untouched L v env r s) as Hi.
  destruct r; unfold untouched in Hi;
    try (destruct Hi as (_ & -> & _); done);
    try (destruct Hi as (-> & _); done);
    try (rewrite Hi; done).
  - by destruct Hi as (_ & ->).
  - clear Hi. simpl. unfold post_hire_me.
    destruct (validate L _ b) as [errors b1].
    destruct (try_catch false s _) as [s' st] eqn:H. simpl.
    apply try_catch_cases in H as [(resp & H & _)|[-> _]]; [|done].
    destruct errors; [|by injection H as <- _].
    bind_step H. injection H as <- _. apply save_Ok in E as (_ & _ & ->).
    simpl. by apply prefix_app_r.
Qed.

(** ** Projects by their [id] *)

Lemma matches_num k n (d : doc) :
  matches k (VNum n) d = true <-> d !! k = Some (VNum n).
Proof.
  unfold matches. destruct (d !! k) as [[]|]; simpl; split; intros H;
    try discriminate H.
  - apply Z.eqb_eq in H. by subst.
  - injection H as ->. apply Z.eqb_refl.
Qed.

Lemma matches_oid k o (d : doc) :
  matches k (VOid o) d = true <-> d !! k = Some (VOid o).
Proof.
  unfold matches. destruct (d !! k) as [[]|]; simpl; split; intros H;
    try discriminate H.
  - apply String.eqb_eq in H. by subst.
  - injection H as ->. apply String.eqb_refl.
Qed.

Lemma find_one_None f (coll : list doc) :
  (forall d, d ∈ coll -> f d = false) -> find_one f coll = None.
Proof.
  induction coll as [|x coll IH]; [reflexivity|]. intros H. simpl.
  rewrite (H x) by left. apply IH. intros d Hd. apply H. by right.
Qed.

Lemma remove_first_None f (coll : list doc) :
  (forall d, d ∈ coll -> f d = false) -> remove_first f coll = coll.
Proof.
  induction coll as [|x coll IH]; [reflexivity|]. intros H. simpl.
  rewrite (H x) by left. f_equal. apply IH. intros d Hd. apply H. by right.
Qed.

Lemma find_one_middle f (pre post : list doc) d :
  (forall x, x ∈ pre -> f x = false) -> f d = true ->
  find_one f (pre ++ d :: post) = Some d
  /\ remove_first f (pre ++ d :: post) = pre ++ post.
Proof.
  intros Hpre Hd. induction pre as [|x pre IH]; simpl.
  - by rewrite Hd.
  - rewrite (Hpre x) by left.
    destruct IH as [-> ->]; [|done]. intros y Hy. apply Hpre. by right.
Qed.

Lemma not_matches_num k n (d : doc) :
  d !! k <> Some (VNum n) -> matches k (VNum n) d = false.
Proof.
  intros H. destruct (matches k (VNum n) d) eqn:E; [|reflexivity].
  by apply matches_num in E.
Qed.

Lemma not_matches_oid k o (d : doc) :
  d !! k <> Some (VOid o) -> matches k (VOid o) d = false.
Proof.
  intros H. destruct (matches k (VOid o) d) eqn:E; [|reflexivity].
  by apply matches_oid in E.
Qed.

Lemma sent_with_document st (x : State * Outcome) :
  sent_with st x.2 = true ->
  x = (x.1, Responded (json st (Document (sent_document x.2)))).
Proof.
  destruct x as [s [[st' []]|]]; simpl; try discriminate.
  intros H. apply Z.eqb_eq in H. by subst.
Qed.

(** The fetch and the deletion of a project, when the [id] is cast and
    the database call succeeds. *)
Lemma get_project_served L v env id q s :
  cast L TNumber (JStr id) = Some q ->
  db_fault env 0 = None ->
  serve L v env (GET_project id) s
  = (s, Responded match find_one (matches "id" q) (projects s) with
                  | Some p => json 200 (Document p)
                  | None => json 404 (Message "Project not found")
                  end).
Proof.
  intros Hq Hdb.
  unfold serve, route, get_project, findOne, cast_query, db.
  rewrite Hq, Hdb. cbn [mbind result_bind].
  by destruct (find_one _ _).
Qed.

Lemma delete_project_served L v env id q s :
  cast L TNumber (JStr id) = Some q ->
  db_fault env 0 = None ->
  serve L v env (DELETE_project id) s
  = match find_one (matches "id" q) (projects s) with
    | Some _ =>
        (with_projects (remove_first (matches "id" q) (projects s)) s,
         Responded (json 200 (Message "Project deleted successfully")))
    | None => (s, Responded (json 404 (Message "Project not found")))
    end.
Proof.
  intros Hq Hdb.
  unfold serve, route, delete_project, findOneAndDelete, cast_query, db.
  rewrite Hq, Hdb. cbn [mbind result_bind].
  by destruct (find_one _ _).
Qed.

(** The [id] that [newId] gives is the [id] of no stored project, when
    the stored ones are safe integers. *)
Lemma newId_fresh (coll : list doc) n :
  safe_ids coll = true ->
  newId (head (sort_desc "id" coll)) = JNum n ->
  forall q, q ∈ coll -> q !! "id" <> Some (VNum n).
Proof.
  intros Hsafe Hn q Hq Heq.
  destruct (head (sort_desc "id" coll)) as [l|] eqn:Eh.
  - apply head_sort_desc in Eh as [Hl Hle].
    specialize (Hle q Hq). rewrite Heq in Hle.
    cbn [newId] in Hn.
    destruct (l !! "id") as [[]|] eqn:El; try discriminate; simpl in Hle.
    + done.
    + rewrite plus_one_safe in Hn by exact (safe_ids_spec _ Hsafe l _ Hl El).
      injection Hn as <-. lia.
  - apply head_sort_desc_None in Eh. rewrite Eh in Hq. by apply elem_of_nil in Hq.
Qed.

(** What a 201 of the creation of a project means for the collection. *)
Lemma post_projects_created L v env b file s s' p :
  serve L v env (POST_projects b file) s
    = (s', Responded (json 201 (Document p))) ->
  safe_ids (projects s) = true ->
  projects s' = projects s ++ [p]
  /\ exists n, p !! "id" = Some (VNum n)
       /\ forall q, q ∈ projects s -> q !! "id" <> Some (VNum n).
Proof.
  intros H Hsafe.
  apply post_projects_201 in H as (errors & b1 & name & s1 & Hp & H).
  apply create_project_201 in H as (obj & Hf & -> & Hv & ->).
  rewrite Hp in *. split; [reflexivity|].
  apply project_fields_id in Hf.
  destruct (created_id L v env obj _ Hf Hv) as (n & Hn & Hid).
  exists n. split; [exact Hid|]. by apply newId_fresh.
Qed.

(** X4. Fetching or deleting a project under an [id] that no stored project
    has is answered 404, and the state is as before. *)
Theorem unknown_project L v env id n r s :
  cast L TNumber (JStr id) = Some (VNum n) ->
  db_fault env 0 = None ->
  (forall p, p ∈ projects s -> p !! "id" <> Some (VNum n)) ->
  r = GET_project id \/ r = DELETE_project id ->
  serve L v env r s = (s, Responded (json 404 (Message "Project not found"))).
Proof.
  intros Hq Hdb Hno Hr.
  assert (Hf : find_one (matches "id" (VNum n)) (projects s) = None).
  { apply find_one_None. intros d Hd. apply not_matches_num. by apply Hno. }
  destruct Hr as [-> | ->].
  - rewrite (get_project_served L v env id _ s Hq Hdb). by rewrite Hf.
  - rewrite (delete_project_served L v env id _ s Hq Hdb). by rewrite Hf.
Qed.

Lemma unknown_project_witness :
  serve Sample.library index_js (Sample.env 4000 Sample.oid1)
    (DELETE_project "7") small
  = (small, Responded (json 404 (Message "Project not found"))).
Proof.
  apply (unknown_project Sample.library index_js (Sample.env 4000 Sample.oid1)
           "7" 7 (DELETE_project "7") small).
  - reflexivity.
  - reflexivity.
  - intros p Hp. simpl in Hp.
    apply elem_of_cons in Hp as [->|Hp]; [discriminate|].
    apply list_elem_of_singleton in Hp. subst p. discriminate.
  - by right.
Defined.

(** X5. Deleting a project removes the first stored project that has the
    [id], and only that one; when no other project has the [id], a
    fetch under the same [id] is answered 404 afterwards. *)
Theorem deleted_project L v env env' id n s pre d post :
  cast L TNumber (JStr id) = Some (VNum n) ->
  db_fault env 0 = None ->
  projects s = pre ++ d :: post ->
  d !! "id" = Some (VNum n) ->
  (forall x, x ∈ pre -> x !! "id" <> Some (VNum n)) ->
  serve L v env (DELETE_project id) s
  = (with_projects (pre ++ post) s,
     Responded (json 200 (Message "Project deleted successfully")))
  /\ (db_fault env' 0 = None ->
      (forall x, x ∈ post -> x !! "id" <> Some (VNum n)) ->
      serve L v env' (GET_project id) (with_projects (pre ++ post) s)
      = (with_projects (pre ++ post) s,
         Responded (json 404 (Message "Project not found")))).
Proof.
  intros Hq Hdb Hs Hd Hpre.
  destruct (find_one_middle (matches "id" (VNum n)) pre post d) as [Hf Hr].
  { intros x Hx. apply not_matches_num. by apply Hpre. }
  { by apply matches_num. }
  split.
  - rewrite (delete_project_served L v env id _ s Hq Hdb).
    by rewrite Hs, Hf, Hr.
  - intros Hdb' Hpost.
    rewrite (get_project_served L v env' id _ _ Hq Hdb'). simpl.
    rewrite find_one_None; [reflexivity|].
    intros x [Hx|Hx]%elem_of_app; apply not_matches_num;
      [by apply Hpre | by apply Hpost].
Qed.

Lemma deleted_project_witness :
  serve Sample.library index_js (Sample.env 4000 Sample.oid1)
    (DELETE_project "2") small
  = (with_projects ([project_one] ++ []) small,
     Responded (json 200 (Message "Project deleted successfully"))).
Proof.
  apply (deleted_project Sample.library index_js (Sample.env 4000 Sample.oid1)
           (Sample.env 4000 Sample.oid1) "2" 2 small [project_one]
           project_two []).
  - reflexivity.
  - reflexivity.
  - reflexivity.
  - reflexivity.
  - intros x Hx. apply list_elem_of_singleton in Hx. subst x. discriminate.
Defined.

(** X6. When every stored [id] is a safe integer (of a magnitude below
    2^53), the [id] of a created project is the [id] of no project that
    was stored before. *)
Theorem created_id_is_fresh L v env b file s s' p :
  serve L v env (POST_projects b file) s
    = (s', Responded (json 201 (Document p))) ->
  safe_ids (projects s) = true ->
  forall q, q ∈ projects s -> q !! "id" <> p !! "id".
Proof.
  intros H Hsafe q Hq.
  apply post_projects_created in H as (_ & n & -> & Hfresh); [|exact Hsafe].
  by apply Hfresh.
Qed.

Lemma created_id_is_fresh_witness :
  length (projects first_created.1) = 1%nat
  /\ forall q, q ∈ projects first_created.1 ->
       q !! "id" <> sent_document second_created.2 !! "id".
Proof.
  split; [vm_compute; reflexivity|].
  apply (created_id_is_fresh Sample.library index_js
           (Sample.env 2000 Sample.oid2) Sample.project_body (Some Sample.png)
           first_created.1 second_created.1).
  - apply (sent_with_document 201 second_created). vm_compute. reflexivity.
  - vm_compute. reflexivity.
Defined.

(** X7. When every stored [id] is a safe integer (of a magnitude below
    2^53), a created project is what a fetch under its [id] answers
    next. *)
Theorem created_project_is_fetched L v env env' b file s s' p id n :
  serve L v env (POST_projects b file) s
    = (s', Responded (json 201 (Document p))) ->
  safe_ids (projects s) = true ->
  p !! "id" = Some (VNum n) ->
  cast L TNumber (JStr id) = Some (VNum n) ->
  db_fault env' 0 = None ->
  serve L v env' (GET_project id) s' = (s', Responded (json 200 (Document p))).
Proof.
  intros H Hsafe Hid Hq Hdb.
  apply post_projects_created in H as (Hs' & m & Hm & Hfresh); [|exact Hsafe].
  rewrite Hid in Hm. injection Hm as <-.
  rewrite (get_project_served L v env' id _ s' Hq Hdb), Hs'.
  destruct (find_one_middle (matches "id" (VNum n)) (projects s) [] p) as [-> _];
    [|by apply matches_num|reflexivity].
  intros x Hx. apply not_matches_num. by apply Hfresh.
Qed.

Lemma created_project_is_fetched_witness :
  serve Sample.library index_js (Sample.env 5000 Sample.oid1)
    (GET_project "2") second_created.1
  = (second_created.1,
     Responded (json 200 (Document (sent_document second_created.2)))).
Proof.
  apply (created_project_is_fetched Sample.library index_js
           (Sample.env 2000 Sample.oid2) (Sample.env 5000 Sample.oid1)
           Sample.project_body (Some Sample.png)
           first_created.1 second_created.1 (sent_document second_created.2)
           "2" 2).
  - apply (sent_with_document 201 second_created). vm_compute. reflexivity.
  - vm_compute. reflexivity.
  - vm_compute. reflexivity.
  - reflexivity.
  - reflexivity.
Defined.

(** ** Feedback by its native identity *)

(** The deletion of feedback, when the identifier is cast and the
    database call succeeds. *)
Lemma delete_feedback_served L env id q s :
  cast L TObjectId (JStr id) = Some q ->
  db_fault env 0 = None ->
  serve L index_js env (DELETE_feedback id) s
  = (with_feedbacks (remove_first (matches "_id" q) (feedbacks s)) s,
     Responded (json 200 (Deleted
       {| acknowledged := true;
          deletedCount := match find_one (matches "_id" q) (feedbacks s) with
                          | Some _ => 1
                          | None => 0
                          end |}))).
Proof.
  intros Hq Hdb.
  unfold serve, route, delete_feedback, deleteOne, cast_query, db.
  rewrite Hq, Hdb. reflexivity.
Qed.

(** X8. Deleting a stored feedback record removes that record and no
    other, and reports one deletion; deleting it again is answered 200
    as well, with no deletion reported, and changes nothing. *)
Theorem deleted_feedback L env env' id o s pre d post :
  cast L TObjectId (JStr id) = Some (VOid o) ->
  db_fault env 0 = None ->
  db_fault env' 0 = None ->
  feedbacks s = pre ++ d :: post ->
  d !! "_id" = Some (VOid o) ->
  (forall x, x ∈ pre ++ post -> x !! "_id" <> Some (VOid o)) ->
  serve L index_js env (DELETE_feedback id) s
  = (with_feedbacks (pre ++ post) s,
     Responded (json 200 (Deleted {| acknowledged := true; deletedCount := 1 |})))
  /\ serve L index_js env' (DELETE_feedback id) (with_feedbacks (pre ++ post) s)
     = (with_feedbacks (pre ++ post) s,
        Responded (json 200 (Deleted {| acknowledged := true; deletedCount := 0 |}))).
Proof.
  intros Hq Hdb Hdb' Hs Hd Hother.
  assert (Hno : forall x, x ∈ pre ++ post -> matches "_id" (VOid o) x = false)
    by (intros x Hx; apply not_matches_oid; by apply Hother).
  destruct (find_one_middle (matches "_id" (VOid o)) pre post d) as [Hf Hr].
  { intros x Hx. apply Hno. apply elem_of_app. by left. }
  { by apply matches_oid. }
  split.
  - rewrite (delete_feedback_served L env id _ s Hq Hdb). by rewrite Hs, Hf, Hr.
  - rewrite (delete_feedback_served L env' id _ _ Hq Hdb'). simpl.
    by rewrite (find_one_None _ _ Hno), (remove_first_None _ _ Hno).
Qed.

Lemma deleted_feedback_witness :
  serve Sample.library index_js (Sample.env 2000 Sample.oid2)
    (DELETE_feedback Sample.oid1) small
  = (with_feedbacks ([] ++ []) small,
     Responded (json 200 (Deleted {| acknowledged := true; deletedCount := 1 |}))).
Proof.
  apply (deleted_feedback Sample.library (Sample.env 2000 Sample.oid2)
           (Sample.env 2000 Sample.oid2) Sample.oid1 Sample.oid1
           small [] feedback_one []).
  - reflexivity.
  - reflexivity.
  - reflexivity.
  - reflexivity.
  - reflexivity.
  - intros x Hx. by apply elem_of_nil in Hx.
Defined.

(** X9. Approving under an identifier that no stored feedback record has
    is answered 404, and the state is as before. *)
Theorem unknown_feedback_approval L v env id o b s :
  cast L TObjectId (JStr id) = Some (VOid o) ->
  db_fault env 0 = None ->
  (forall f, f ∈ feedbacks s -> f !! "_id" <> Some (VOid o)) ->
  serve L v env (PUT_feedback_approve id b) s
  = (s, Responded (json 404 (Message "Feedback not found"))).
Proof.
  intros Hq Hdb Hno.
  unfold serve, route, approve_feedback, findOneAndUpdate, cast_query, db.
  rewrite Hq, approve_cast_set, Hdb. cbn [mbind result_bind].
  rewrite find_one_None; [reflexivity|].
  intros d Hd. apply not_matches_oid. by apply Hno.
Qed.

Lemma unknown_feedback_approval_witness :
  serve Sample.library index_js (Sample.env 2000 Sample.oid2)
    (PUT_feedback_approve Sample.oid2 ∅) small
  = (small, Responded (json 404 (Message "Feedback not found"))).
Proof.
  apply (unknown_feedback_approval Sample.library index_js
           (Sample.env 2000 Sample.oid2) Sample.oid2 Sample.oid2 ∅ small).
  - reflexivity.
  - reflexivity.
  - intros f Hf. apply list_elem_of_singleton in Hf. subst f. discriminate.
Defined.

(** ** Validation *)

(** A chain that is not optional reports its field when its first item
    counts an error on the value of the field. *)
Lemma validate_first_item L cs b c it rest :
  c ∈ cs ->
  NoDup (field <$> cs) ->
  is_optional c = false ->
  items c = it :: rest ->
  (run_item L it (b !! field c)).1 <> 0%nat ->
  field c ∈ (validate L cs b).1.
Proof.
  intros Hc Hnd Hopt Hits. revert b.
  induction cs as [|x cs IH]; intros b Hb; [by apply elem_of_nil in Hc|].
  rewrite fmap_cons in Hnd. apply NoDup_cons in Hnd as [Hx Hnd].
  simpl. destruct (run_chain L x b) as [e1 b1] eqn:E1.
  destruct (validate L cs b1) as [e2 b2] eqn:E2. simpl.
  apply elem_of_app.
  apply elem_of_cons in Hc as [<-|Hc].
  - left. unfold run_chain in E1. rewrite Hopt, Hits in E1.
    assert (E : exists n v', run_items L (it :: rest) (b !! field c) = (S n, v')).
    { simpl. destruct (run_item L it (b !! field c)) as [n v1].
      destruct (run_items L rest v1) as [m v2]. simpl in Hb.
      destruct n; [done|]. by exists (n + m)%nat, v2. }
    destruct E as (n & v' & E).
    destruct (b !! field c); rewrite E in E1; injection E1 as <- _; left.
  - right. change e2 with (e2, b2).1. rewrite <- E2.
    apply IH; [done..|].
    change b1 with (e1, b1).2. rewrite <- E1.
    rewrite run_chain_frame; [done|].
    intros Heq. apply Hx. rewrite <- Heq. by apply list_elem_of_fmap_2.
Qed.

(** A standard validator counts an error on a value that is no array
    when the text of the value does not pass. *)
Lemma standard_error L it v :
  (forall l, v <> Some (JArr l)) ->
  match it with NotEmpty | IsEmail | IsNumeric => True | _ => False end ->
  standard L it (toStr_opt L v) = false ->
  (run_item L it v).1 <> 0%nat.
Proof.
  intros Harr Hit Hs.
  assert (Hv : visited v = [v]).
  { destruct v as [j|]; [|reflexivity].
    destruct j; try reflexivity. by destruct (Harr l). }
  destruct it; try done; simpl; rewrite Hv;
    rewrite filter_cons_True by done; discriminate.
Qed.

Lemma blank_not_empty L v :
  blank v -> (run_item L NotEmpty v).1 <> 0%nat.
Proof. by intros [->|[->| ->]]. Qed.

Lemma checked_NoDup v r cs b :
  checked v r = Some (cs, b) -> NoDup (field <$> cs).
Proof.
  intros H.
  destruct r; try discriminate; injection H as <- _;
    destruct v; apply (bool_decide_unpack _); vm_compute; exact I.
Qed.

(** The routes with chains answer 400 with the errors of the chains
    when there are any, and the state is as before. *)
Lemma checked_rejected L v env r s cs b f :
  checked v r = Some (cs, b) ->
  f ∈ (validate L cs b).1 ->
  serve L v env r s = (s, Responded (json 400 (Errors (validate L cs b).1))).
Proof.
  intros H Hf.
  destruct r; try discriminate; injection H as <- <-;
    unfold serve, route, put_project, post_feedback, post_hire_me;
    destruct (validate L _ _) as [errors b1]; simpl in *;
    (destruct errors; [by apply elem_of_nil in Hf | reflexivity]).
Qed.

(** X10. When the body of an update of a project, of a feedback or of a
    hire request leaves a required text field blank, the request is
    answered 400, nothing is stored, and the errors name every required
    text field that is blank, not only the first. *)
Theorem blank_fields_reported L v env r s cs b c :
  checked v r = Some (cs, b) ->
  c ∈ cs -> required_text c -> blank (b !! field c) ->
  exists errors,
    serve L v env r s = (s, Responded (json 400 (Errors errors)))
    /\ forall c', c' ∈ cs -> required_text c' -> blank (b !! field c') ->
         field c' ∈ errors.
Proof.
  intros Hr Hc Hreq Hb.
  assert (Hall : forall c', c' ∈ cs -> required_text c' ->
                   blank (b !! field c') -> field c' ∈ (validate L cs b).1).
  { intros c' Hc' [Hopt (rest & Hits)] Hb'.
    eapply validate_first_item; eauto using checked_NoDup, blank_not_empty. }
  exists (validate L cs b).1. split; [|exact Hall].
  eapply checked_rejected; eauto.
Qed.

Lemma blank_fields_reported_witness :
  exists errors,
    serve Sample.library index_js (Sample.env 1000 Sample.oid1)
      (POST_feedback nameless) small
    = (small, Responded (json 400 (Errors errors)))
    /\ forall c', c' ∈ validateFeedback index_js -> required_text c' ->
         blank (nameless !! field c') -> field c' ∈ errors.
Proof.
  apply (blank_fields_reported Sample.library index_js
           (Sample.env 1000 Sample.oid1) (POST_feedback nameless) small
           (validateFeedback index_js) nameless (text "name")).
  - reflexivity.
  - left.
  - split; [reflexivity | by exists [Trim; Escape]].
  - left. vm_compute. reflexivity.
Defined.

(** X11. A feedback or a hire request whose [email] is not an e-mail
    address for the validator, or is missing when the validator takes
    the empty text for none, is answered 400 with an error for
    [email], and nothing is stored. *)
Theorem invalid_email_rejected L v env r s b :
  r = POST_feedback b \/ r = POST_hire_me b ->
  (forall l, b !! "email" <> Some (JArr l)) ->
  is_email L (toStr_opt L (b !! "email")) = false ->
  exists errors,
    serve L v env r s = (s, Responded (json 400 (Errors errors)))
    /\ "email" ∈ errors.
Proof.
  intros Hr Harr Hmail.
  assert (Hc : exists cs, checked v r = Some (cs, b) /\ email_chain ∈ cs).
  { destruct Hr as [-> | ->]; eexists; (split; [reflexivity|]);
      destruct v; simpl; repeat (first [by left | right]). }
  destruct Hc as (cs & Hcs & Hin).
  assert (He : "email" ∈ (validate L cs b).1).
  { apply (validate_first_item L cs b email_chain IsEmail [NormalizeEmail]);
      [done | by eapply checked_NoDup | done..|].
    by apply standard_error. }
  exists (validate L cs b).1. split; [|exact He].
  eapply checked_rejected; eauto.
Qed.

Lemma invalid_email_rejected_witness :
  exists errors,
    serve Sample.library index_js (Sample.env 1000 Sample.oid1)
      (POST_feedback (delete "email" Sample.feedback_body)) small
    = (small, Responded (json 400 (Errors errors)))
    /\ "email" ∈ errors.
Proof.
  apply (invalid_email_rejected Sample.library index_js
           (Sample.env 1000 Sample.oid1)
           (POST_feedback (delete "email" Sample.feedback_body)) small
           (delete "email" Sample.feedback_body)).
  - by left.
  - intros l. rewrite lookup_delete_eq. discriminate.
  - rewrite lookup_delete_eq. reflexivity.
Defined.

(** ** The fields an update leaves alone *)

(** Chains that pass leave a field that the body does not have
    undefined, when every chain is optional or starts with
    [notEmpty()]. *)
Lemma validate_absent L cs (b : body) k :
  (forall c, c ∈ cs -> is_optional c = true \/ required_text c) ->
  (validate L cs b).1 = [] ->
  b !! k = None ->
  (validate L cs b).2 !! k = None.
Proof.
  revert b. induction cs as [|c cs IH]; intros b Hcs He Hk; [done|].
  simpl in *. destruct (run_chain L c b) as [e1 b1] eqn:E1.
  destruct (validate L cs b1) as [e2 b2] eqn:E2. simpl in *.
  apply app_eq_nil in He as [-> ->].
  change b2 with (@nil string, b2).2. rewrite <- E2.
  apply IH; [intros c' Hc'; apply Hcs; by right | by rewrite E2 |].
  change b1 with (@nil string, b1).2. rewrite <- E1.
  destruct (decide (k = field c)) as [->|Hne]; [|by rewrite run_chain_frame].
  unfold run_chain in *. rewrite Hk in *.
  destruct (Hcs c) as [Ho|[Ho (rest & Hi)]]; [left | by rewrite Ho |].
  rewrite Ho, Hi in E1. simpl in E1.
  destruct (run_items L rest None) as [m v2]. discriminate.
Qed.

Lemma validateProject_chains v c :
  c ∈ validateProject v -> is_optional c = true \/ required_text c.
Proof.
  intros H. destruct v; simpl in H;
    repeat (apply elem_of_cons in H as [->|H];
            [first [by left | right; split; [reflexivity | by eexists]]|]);
    by apply elem_of_nil in H.
Qed.

(** A 200 of the update handler came after chains without errors. *)
Lemma put_project_valid L v env id b s s' p :
  serve L v env (PUT_project id b) s = (s', Responded (json 200 (Document p))) ->
  (validate L (validateProject v) b).1 = [].
Proof.
  unfold serve, route, put_project.
  destruct (validate L (validateProject v) b) as [errors b1]. intros H.
  destruct (try_catch false s _) as [s2 st] eqn:Et.
  injection H as -> Hst.
  eapply try_catch_sent in Et; [|exact Hst|simpl; lia].
  by destruct errors.
Qed.

(** X12. After a successful update whose body has plain field names only,
    the returned record stands where the stored one stood, and it
    differs from it in [updatedAt] and in fields of the body only. *)
Theorem update_keeps_other_fields L v env id b s s' p :
  serve L v env (PUT_project id b) s = (s', Responded (json 200 (Document p))) ->
  plain_body b ->
  exists old pre post,
    projects s = pre ++ old :: post
    /\ projects s' = pre ++ p :: post
    /\ forall k, k <> "updatedAt" -> b !! k = None -> p !! k = old !! k.
Proof.
  intros H Hplain.
  pose proof (put_project_valid _ _ _ _ _ _ _ _ H) as Hvalid.
  apply put_project_200 in H as (coll & Hu & ->).
  apply findOneAndUpdate_Some in Hu
    as (qv & set & old & Hq & Hset & Hdb & Hfind & Hap & ->).
  pose proof (put_update_plain L v env b Hplain) as Hupd.
  apply apply_update_plain in Hap; [|exact Hupd]. subst p.
  destruct (replace_first_split _ (set ∪ old) _ _ Hfind)
    as (pre & post & Hcoll & Hrep & _).
  exists old, pre, post. split; [exact Hcoll|]. split; [exact Hrep|].
  intros k Hk Hb. apply lookup_union_r.
  rewrite (cast_set_lookup _ _ _ _ k Hset).
  assert (plain_part (<["updatedAt" := JDate (t_now env)]>
                        (validate L (validateProject v) b).2) !! k = None) as ->.
  { apply map_lookup_filter_None. left.
    rewrite lookup_insert_ne by done.
    apply validate_absent; [apply validateProject_chains | done..]. }
  by destruct (ProjectSchema v !! k).
Qed.

Lemma update_keeps_other_fields_witness :
  exists old pre post,
    projects first_created.1 = pre ++ old :: post
    /\ projects updated.1 = pre ++ sent_document updated.2 :: post
    /\ forall k, k <> "updatedAt" -> Sample.project_body !! k = None ->
         sent_document updated.2 !! k = old !! k.
Proof.
  apply (update_keeps_other_fields Sample.library index_js
           (Sample.env 3000 Sample.oid1) "1" Sample.project_body
           first_created.1 updated.1 (sent_document updated.2)).
  - apply (sent_with_document 200 updated). vm_compute. reflexivity.
  - apply plain_body_check. vm_compute. reflexivity.
Defined.

(** ** The creation of a project and its image *)

Lemma existsb_eqb_true (m : string) (l : list string) :
  m ∈ l -> existsb (String.eqb m) l = true.
Proof.
  induction l as [|x l IH]; [by intros H; apply elem_of_nil in H|].
  intros [->|H]%elem_of_cons; simpl.
  - by rewrite String.eqb_refl.
  - rewrite IH by done. apply orb_true_r.
Qed.

(** An image of an allowed type under the field [img], smaller than
    the limit, is written to the upload directory under the time of
    the upload and its original name. *)
Lemma upload_single_accepts L env f s :
  fieldname f = "img" ->
  mimetype f ∈ allowedTypes ->
  size f < fileSize ->
  upload_single L env (Some f) s
  = Ok (with_upload (filename env f) s, Some (filename env f)).
Proof.
  intros Hf Hm Hs. unfold upload_single, fileFilter, too_large.
  rewrite Hf, String.eqb_refl, (existsb_eqb_true _ _ Hm).
  cbn [negb mbind result_bind].
  destruct (refuses_at_limit L);
    [rewrite (proj2 (Z.leb_gt _ _) Hs) | rewrite (proj2 (Z.ltb_ge _ _))];
    first [reflexivity | lia].
Qed.

Lemma upload_single_Some L env file s s1 name :
  upload_single L env file s = Ok (s1, Some name) ->
  exists f, file = Some f /\ name = filename env f
            /\ s1 = with_upload (filename env f) s.
Proof.
  unfold upload_single. intros H.
  destruct file as [f|]; [|discriminate].
  destruct (negb _); [discriminate|].
  destruct (fileFilter f); cbn [mbind result_bind] in H; [|discriminate].
  destruct (too_large L f); [discriminate|].
  injection H as <- <-. by exists f.
Qed.

(** X13. In src/index.js, a creation without a file part never creates a
    project: it is answered 400 or 500 and the state is as before. *)
Theorem creation_without_file L env b s :
  exists resp,
    serve L index_js env (POST_projects b None) s = (s, Responded resp)
    /\ (status resp = 400 \/ status resp = 500).
Proof.
  unfold serve, route, post_projects. simpl upload_single.
  destruct (validate L (validateProject index_js) b) as [errors b1].
  unfold create_project. destruct errors as [|e errors].
  - unfold db. destruct (db_fault env 0); cbn [mbind result_bind];
      eexists; (split; [reflexivity | by right]).
  - eexists. split; [reflexivity | by left].
Qed.

(** X14. In src/index.js, when the upload middleware accepts the file and
    the chains then refuse the body, the request is answered 400 and no
    project is stored, but the file stays in the upload directory. *)
Theorem rejected_creation_keeps_file L env b f s c :
  fieldname f = "img" ->
  mimetype f ∈ allowedTypes ->
  size f < fileSize ->
  c ∈ validateProject index_js -> required_text c -> blank (b !! field c) ->
  exists errors,
    serve L index_js env (POST_projects b (Some f)) s
    = (with_upload (filename env f) s, Responded (json 400 (Errors errors)))
    /\ field c ∈ errors.
Proof.
  intros Hf Hm Hs Hc [Hopt (rest & Hits)] Hb.
  assert (He : field c ∈ (validate L (validateProject index_js) b).1).
  { eapply validate_first_item; eauto using blank_not_empty.
    apply (bool_decide_unpack _). vm_compute. exact I. }
  unfold serve, route, post_projects.
  rewrite (upload_single_accepts L env f s Hf Hm Hs).
  destruct (validate L (validateProject index_js) b) as [errors b1].
  simpl in He. exists errors. split; [|exact He].
  destruct errors; [by apply elem_of_nil in He | reflexivity].
Qed.

Lemma rejected_creation_keeps_file_witness :
  exists errors,
    serve Sample.library index_js (Sample.env 1000 Sample.oid1)
      (POST_projects (delete "img" Sample.project_body) (Some Sample.png)) small
    = (with_upload "1000-a.png" small, Responded (json 400 (Errors errors)))
    /\ "img" ∈ errors.
Proof.
  apply (rejected_creation_keeps_file Sample.library
           (Sample.env 1000 Sample.oid1) (delete "img" Sample.project_body)
           Sample.png small img_chain).
  - reflexivity.
  - right. left.
  - reflexivity.
  - simpl. do 3 right. left.
  - split; [reflexivity | by exists []].
  - left. apply lookup_delete_eq.
Defined.

(** What a 201 of the creation of a project means, with the body the
    chains leave and the file the upload middleware leaves. *)
Lemma post_projects_201_parts L v env b file s s' p :
  serve L v env (POST_projects b file) s
    = (s', Responded (json 201 (Document p))) ->
  exists name s1 obj,
    match v with
    | index_js => upload_single L env file s = Ok (s1, name)
    | part_000 => s1 = s
    end
    /\ project_fields v env (validate L (validateProject v) b).2
         (newId (head (sort_desc "id" (projects s1)))) name = Ok obj
    /\ p = new_document L env (ProjectSchema v) obj
    /\ s' = with_projects (projects s1 ++ [p]) s1.
Proof.
  unfold serve, route, post_projects. intros H.
  destruct v.
  - destruct (upload_single L env file s) as [[s1 name]|e] eqn:Eu.
    + destruct (validate L (validateProject index_js) b) as [errors b1].
      destruct (try_catch true s1 _) as [s2 st] eqn:Et.
      injection H as -> Hst.
      eapply try_catch_sent in Et; [|exact Hst|simpl; lia].
      apply create_project_201 in Et as (obj & Hf & -> & _ & ->).
      by exists name, s1, obj.
    + simpl in H. injection H as _ H. discriminate.
  - destruct (validate L (validateProject part_000) b) as [errors b1].
    destruct (try_catch false s _) as [s2 st] eqn:Et.
    injection H as -> Hst.
    eapply try_catch_sent in Et; [|exact Hst|simpl; lia].
    apply create_project_201 in Et as (obj & Hf & -> & _ & ->).
    by exists None, s, obj.
Qed.

Lemma ProjectSchema_img v : ProjectSchema v !! "img" = Some (req_string false).
Proof. destruct v; reflexivity. Qed.

(** X15. In src/index.js, a created project has for [img] the public path
    of the file that the request uploaded, whatever the body says, the
    file is in the upload directory, and [updatedAt] is the time of
    the creation. *)
Theorem created_project_image L env b file s s' p :
  serve L index_js env (POST_projects b file) s
    = (s', Responded (json 201 (Document p))) ->
  exists f,
    file = Some f
    /\ p !! "img" = Some (VStr ("/uploads/projects/" +:+ filename env f))
    /\ uploads s' = uploads s ++ [filename env f]
    /\ p !! "updatedAt" = Some (VDate (t_now env)).
Proof.
  intros H.
  apply post_projects_201_parts in H as (name & s1 & obj & Hu & Hf & -> & ->).
  unfold project_fields in Hf. destruct name as [nm|]; [|discriminate].
  injection Hf as <-.
  apply upload_single_Some in Hu as (f & -> & -> & ->).
  exists f. split; [reflexivity|].
  rewrite !new_document_lookup, ProjectSchema_img, ProjectSchema_updatedAt.
  rewrite lookup_insert_ne, lookup_insert_eq by done.
  rewrite lookup_insert_eq. done.
Qed.

Lemma created_project_image_witness :
  exists f,
    Some Sample.png = Some f
    /\ sent_document first_created.2 !! "img"
       = Some (VStr ("/uploads/projects/" +:+ filename (Sample.env 1000 Sample.oid1) f))
    /\ uploads first_created.1
       = uploads Sample.empty ++ [filename (Sample.env 1000 Sample.oid1) f]
    /\ sent_document first_created.2 !! "updatedAt" = Some (VDate 1000).
Proof.
  apply (created_project_image Sample.library (Sample.env 1000 Sample.oid1)
           Sample.project_body (Some Sample.png) Sample.empty
           first_created.1 (sent_document first_created.2)).
  apply (sent_with_document 201 first_created). vm_compute. reflexivity.
Defined.

(** ** What a created record holds *)

(** A response other than a 500 is the one the route sent. *)
Lemma serve_sent L v env r s s' resp :
  serve L v env r s = (s', Responded resp) ->
  status resp <> 500 ->
  route L v env r s = (s', Sent resp).
Proof.
  unfold serve. destruct (route L v env r s) as [s1 st].
  intros [= -> Ho] Hne. by rewrite (settle_Responded L st resp Ho Hne).
Qed.

(** What a chain leaves at its field depends on what the body has
    there only. *)
Lemma run_chain_local L c (b b' : body) :
  b !! field c = b' !! field c ->
  (run_chain L c b).2 !! field c = (run_chain L c b').2 !! field c.
Proof.
  intros H. unfold run_chain. rewrite <- H.
  destruct (b !! field c) as [j|] eqn:E, (is_optional c);
    try (destruct (run_items L (items c) _) as [n [j'|]]; simpl;
         rewrite ?lookup_insert_eq; congruence).
  simpl. congruence.
Qed.

Lemma validate_value L cs (b : body) c :
  c ∈ cs ->
  NoDup (field <$> cs) ->
  (validate L cs b).2 !! field c = (run_chain L c b).2 !! field c.
Proof.
  revert b. induction cs as [|x cs IH]; intros b Hc Hnd;
    [by apply elem_of_nil in Hc|].
  rewrite fmap_cons in Hnd. apply NoDup_cons in Hnd as [Hx Hnd].
  simpl. destruct (run_chain L x b) as [e1 b1] eqn:E1.
  destruct (validate L cs b1) as [e2 b2] eqn:E2. simpl.
  change b2 with (e2, b2).2. rewrite <- E2.
  apply elem_of_cons in Hc as [->|Hc].
  - rewrite validate_frame by done. by rewrite E1.
  - rewrite IH by done. apply run_chain_local.
    change b1 with (e1, b1).2. rewrite <- E1.
    apply run_chain_frame. intros Heq. apply Hx. rewrite <- Heq.
    by apply list_elem_of_fmap_2.
Qed.

(** [body(f).notEmpty().trim().escape()] on a string. *)
Lemma text_chain_value L f (b : body) n :
  b !! f = Some (JStr n) ->
  (run_chain L (text f) b).2 !! f = Some (JStr (str_escape L (str_trim L n))).
Proof.
  intros H. unfold run_chain. cbn [field is_optional items text].
  rewrite H. cbn [run_items].
  destruct (run_item L NotEmpty (Some (JStr n))) as [k v1] eqn:E.
  injection E as _ <-. simpl. apply lookup_insert_eq.
Qed.

(** [body("img").notEmpty()] leaves the field as it is. *)
Lemma img_chain_value L (b : body) :
  (run_chain L img_chain b).2 !! "img" = b !! "img".
Proof.
  unfold run_chain. cbn [field is_optional items img_chain].
  destruct (b !! "img") as [j|] eqn:E; cbn [run_items];
    destruct (run_item L NotEmpty _) as [k v1] eqn:E1;
    injection E1 as _ <-; simpl; [apply lookup_insert_eq | exact E].
Qed.

Lemma FeedbackSchema_name v : FeedbackSchema v !! "name" = Some (req_string true).
Proof. destruct v; reflexivity. Qed.

Lemma FeedbackSchema_message v :
  FeedbackSchema v !! "message" = Some (req_string false).
Proof. destruct v; reflexivity. Qed.

Lemma validateFeedback_NoDup v : NoDup (field <$> validateFeedback v).
Proof. destruct v; apply (bool_decide_unpack _); vm_compute; exact I. Qed.

Lemma validateProject_NoDup v : NoDup (field <$> validateProject v).
Proof. destruct v; apply (bool_decide_unpack _); vm_compute; exact I. Qed.

(** X16. A created feedback record holds the name and the message of the
    body trimmed and escaped by the chains; the name is trimmed once
    more by its schema path. *)
Theorem stored_feedback_text L v env b s s' f n m :
  serve L v env (POST_feedback b) s
    = (s', Responded (json 201 (Document f))) ->
  b !! "name" = Some (JStr n) ->
  b !! "message" = Some (JStr m) ->
  f !! "name" = Some (VStr (str_trim L (str_escape L (str_trim L n))))
  /\ f !! "message" = Some (VStr (str_escape L (str_trim L m))).
Proof.
  intros Er Hn Hm. apply serve_sent in Er; [|simpl; lia].
  apply post_feedback_201 in Er as [-> _].
  rewrite !new_document_lookup, FeedbackSchema_name, FeedbackSchema_message.
  assert (Hin : text "name" ∈ validateFeedback v
                /\ text "message" ∈ validateFeedback v)
    by (destruct v; simpl; split; repeat (first [by left | right])).
  pose proof (validate_value L _ b _ (proj1 Hin) (validateFeedback_NoDup v)) as E1.
  pose proof (validate_value L _ b _ (proj2 Hin) (validateFeedback_NoDup v)) as E2.
  change (field (text "name")) with "name" in E1.
  change (field (text "message")) with "message" in E2.
  rewrite E1, E2, (text_chain_value L "name" b n Hn),
          (text_chain_value L "message" b m Hm).
  done.
Qed.

Lemma stored_feedback_text_witness :
  sent_document feedback_created.2 !! "name"
  = Some (VStr (Sample.trim (Sample.escape (Sample.trim "Ann"))))
  /\ sent_document feedback_created.2 !! "message"
     = Some (VStr (Sample.escape (Sample.trim "Nice work"))).
Proof.
  apply (stored_feedback_text Sample.library index_js
           (Sample.env 1000 Sample.oid1) Sample.feedback_body Sample.empty
           feedback_created.1 (sent_document feedback_created.2)
           "Ann" "Nice work").
  - apply (sent_with_document 201 feedback_created). vm_compute. reflexivity.
  - vm_compute. reflexivity.
  - vm_compute. reflexivity.
Defined.

(** The object given to [new Project] has the fields of the body,
    but for [id], [updatedAt] and, in src/index.js, [img]. *)
Lemma project_fields_other v env (b : body) i file obj k :
  project_fields v env b i file = Ok obj ->
  k <> "updatedAt" -> k <> "id" -> (v = index_js -> k <> "img") ->
  obj !! k = b !! k.
Proof.
  unfold project_fields. intros H Hu Hi Him.
  destruct v; [destruct file; [|discriminate]|]; injection H as <-.
  - specialize (Him eq_refl). by rewrite !lookup_insert_ne by congruence.
  - by rewrite !lookup_insert_ne by congruence.
Qed.

(** X17. In the earlier variant, a created project has for [img] the string
    that the body has there. *)
Theorem created_project_img_body L env b file s s' p i :
  serve L part_000 env (POST_projects b file) s
    = (s', Responded (json 201 (Document p))) ->
  b !! "img" = Some (JStr i) ->
  p !! "img" = Some (VStr i).
Proof.
  intros H Hi.
  apply post_projects_201_parts in H as (name & s1 & obj & _ & Hf & -> & _).
  rewrite new_document_lookup, ProjectSchema_img.
  rewrite (project_fields_other _ _ _ _ _ _ "img" Hf) by done.
  assert (Hin : img_chain ∈ validateProject part_000)
    by (simpl; repeat (first [by left | right])).
  pose proof (validate_value L _ b _ Hin (validateProject_NoDup part_000)) as E.
  change (field img_chain) with "img" in E.
  by rewrite E, img_chain_value, Hi.
Qed.

Lemma created_project_img_body_witness :
  sent_document plain_created.2 !! "img" = Some (VStr "a.png").
Proof.
  apply (created_project_img_body Sample.library (Sample.env 1000 Sample.oid1)
           Sample.project_body None Sample.empty plain_created.1).
  - apply (sent_with_document 201 plain_created). vm_compute. reflexivity.
  - vm_compute. reflexivity.
Defined.

(** ** The time of a creation *)

Lemma not_createdAt_field v :
  ("createdAt" ∉ field <$> validateProject v)
  /\ ("createdAt" ∉ field <$> validateFeedback v)
  /\ ("createdAt" ∉ field <$> validateHireMe v).
Proof.
  repeat split; intros H; destruct v; simpl in H;
    repeat (apply elem_of_cons in H as [H|H]; [discriminate|]);
    by apply elem_of_nil in H.
Qed.

Lemma schemas_createdAt v :
  ProjectSchema v !! "createdAt" = Some created_at
  /\ FeedbackSchema v !! "createdAt" = Some created_at
  /\ HireMeSchema v !! "createdAt" = Some created_at.
Proof. destruct v; repeat split; reflexivity. Qed.

(** The [createdAt] of a new document. *)
Lemma new_document_createdAt L env sch (obj : body) :
  sch !! "createdAt" = Some created_at ->
  new_document L env sch obj !! "createdAt"
  = match obj !! "createdAt" with
    | None => Some (VDate (t_default env))
    | Some j => cast L TDate j
    end.
Proof.
  intros H. rewrite new_document_lookup, H.
  destruct (obj !! "createdAt") as [j|]; [|reflexivity].
  cbn [init_path ptype created_at].
  destruct (cast L TDate j) as [w|]; [|reflexivity].
  cbn [fmap option_fmap option_map]. by rewrite setters_none.
Qed.

(** What a 201 of the creation of a hire request means. *)
Lemma post_hire_me_201 L v env b s s' h :
  route L v env (POST_hire_me b) s = (s', Sent (json 201 (Document h))) ->
  h = new_document L env (HireMeSchema v) (validate L (validateHireMe v) b).2
  /\ s' = with_hire_requests (hire_requests s ++ [h]) s.
Proof.
  unfold route, post_hire_me.
  destruct (validate L (validateHireMe v) b) as [errors b1] eqn:Ev. intros H.
  apply try_catch_cases in H as [(resp & H & [= <-])|[_ H]];
    [|by destruct (H (json 201 (Document h)))].
  destruct errors; [|discriminate].
  bind_step H. injection H as <- <-.
  by apply save_Ok in E as (_ & _ & ->).
Qed.

(** X18. A created project, feedback record or hire request has for
    [createdAt] the time of the creation when the body has no
    [createdAt] field, and the cast of the body's otherwise. *)
Theorem creation_time L v env r b s s' d :
  creation r = Some b ->
  serve L v env r s = (s', Responded (json 201 (Document d))) ->
  d !! "createdAt"
  = match b !! "createdAt" with
    | None => Some (VDate (t_default env))
    | Some j => cast L TDate j
    end.
Proof.
  intros Hr H.
  destruct (schemas_createdAt v) as (Hp & Hf & Hh).
  destruct (not_createdAt_field v) as (Np & Nf & Nh).
  destruct r; try discriminate; injection Hr as ->.
  - apply post_projects_201_parts in H as (name & s1 & obj & _ & Hobj & -> & _).
    rewrite new_document_createdAt by done.
    rewrite (project_fields_other _ _ _ _ _ _ "createdAt" Hobj) by done.
    by rewrite validate_frame.
  - apply serve_sent in H; [|simpl; lia].
    apply post_feedback_201 in H as [-> _].
    rewrite new_document_createdAt by done. by rewrite validate_frame.
  - apply serve_sent in H; [|simpl; lia].
    apply post_hire_me_201 in H as [-> _].
    rewrite new_document_createdAt by done. by rewrite validate_frame.
Qed.

Lemma creation_time_witness :
  sent_document feedback_created.2 !! "createdAt"
  = match Sample.feedback_body !! "createdAt" with
    | None => Some (VDate 1000)
    | Some j => cast Sample.library TDate j
    end.
Proof.
  apply (creation_time Sample.library index_js (Sample.env 1000 Sample.oid1)
           (POST_feedback Sample.feedback_body) Sample.feedback_body
           Sample.empty feedback_created.1).
  - reflexivity.
  - apply (sent_with_document 201 feedback_created). vm_compute. reflexivity.
Defined.

(** ** What an update and an approval can change *)

Lemma validateProject_not_id v : "id" ∉ field <$> validateProject v.
Proof.
  intros H. destruct v; simpl in H;
    repeat (apply elem_of_cons in H as [H|H]; [discriminate|]);
    by apply elem_of_nil in H.
Qed.

(** X19. The application-level [id] is an ordinary field for an update: after
    a successful update whose body has plain field names only, the [id]
    of the record is the cast of the body's [id] when the body has one,
    whether or not another project has that [id], and the stored one
    otherwise. *)
Theorem update_reassigns_id L v env id b s s' p :
  serve L v env (PUT_project id b) s = (s', Responded (json 200 (Document p))) ->
  plain_body b ->
  exists old pre post,
    projects s = pre ++ old :: post
    /\ projects s' = pre ++ p :: post
    /\ p !! "id"
       = match b !! "id" with
         | None => old !! "id"
         | Some j => cast L TNumber j
         end.
Proof.
  intros H Hplain.
  apply put_project_200 in H as (coll & Hu & ->).
  apply findOneAndUpdate_Some in Hu
    as (qv & set & old & Hq & Hset & Hdb & Hfind & Hap & ->).
  pose proof (put_update_plain L v env b Hplain) as Hupd.
  apply apply_update_plain in Hap; [|exact Hupd]. subst p.
  destruct (replace_first_split _ (set ∪ old) _ _ Hfind)
    as (pre & post & Hcoll & Hrep & _).
  exists old, pre, post. split; [exact Hcoll|]. split; [exact Hrep|].
  pose proof (cast_set_lookup _ _ _ _ "id" Hset) as Hl.
  pose proof (cast_set_casts _ _ _ _ "id" Hset) as Hc.
  rewrite ProjectSchema_id, plain_part_lookup in Hl, Hc by reflexivity.
  rewrite lookup_insert_ne in Hl, Hc by done.
  rewrite validate_frame in Hl, Hc by apply validateProject_not_id.
  destruct (b !! "id") as [j|];
    cbn [set_path cast_fails ptype plain] in Hl, Hc.
  - destruct (cast L TNumber j) as [w|]; [|discriminate].
    apply lookup_union_Some_l. rewrite Hl. cbn [fmap option_fmap option_map].
    by rewrite setters_none.
  - by apply lookup_union_r.
Qed.

Lemma update_reassigns_id_witness :
  exists old pre post,
    projects first_created.1 = pre ++ old :: post
    /\ projects updated.1 = pre ++ sent_document updated.2 :: post
    /\ sent_document updated.2 !! "id"
       = match Sample.project_body !! "id" with
         | None => old !! "id"
         | Some j => cast Sample.library TNumber j
         end.
Proof.
  apply (update_reassigns_id Sample.library index_js
           (Sample.env 3000 Sample.oid1) "1" Sample.project_body
           first_created.1 updated.1 (sent_document updated.2)).
  - apply (sent_with_document 200 updated). vm_compute. reflexivity.
  - apply plain_body_check. vm_compute. reflexivity.
Defined.

Lemma elem_of_replace_first f (x d : doc) coll :
  d ∈ replace_first f x coll -> d = x \/ d ∈ coll.
Proof.
  induction coll as [|y coll IH]; simpl; [by right|].
  destruct (f y).
  - intros [->|H]%elem_of_cons; [by left | right; by right].
  - intros [->|H]%elem_of_cons; [right; left|].
    destruct (IH H) as [->|H']; [by left | right; by right].
Qed.

(** The approval changes stored feedback in one way only. *)
Lemma approve_feedbacks L v env id b s s' st d :
  route L v env (PUT_feedback_approve id b) s = (s', st) ->
  d ∈ feedbacks s' ->
  d ∈ feedbacks s
  \/ exists d0, d0 ∈ feedbacks s /\ d = <["approved" := VBool true]> d0.
Proof.
  simpl. intros H Hd.
  apply try_catch_cases in H as [(resp & H & _)|[-> _]]; [|by left].
  bind_step H. destruct a as [coll [f|]]; [|injection H as <- _; by left].
  injection H as <- _. simpl in Hd.
  apply findOneAndUpdate_Some in E
    as (qv & set & d0 & Hq & Hset & Hdb & Hfind & Hap & ->).
  rewrite approve_cast_set in Hset. injection Hset as <-.
  unfold apply_update in Hap. rewrite approve_no_operator in Hap.
  destruct (keeps_id _ d0); [|discriminate]. injection Hap as <-.
  apply elem_of_replace_first in Hd as [->|Hd]; [|by left].
  right. exists d0. split.
  - destruct (replace_first_split _ d0 _ _ Hfind) as (pre & post & -> & _).
    apply elem_of_app. right. left.
  - by rewrite <- insert_union_singleton_l.
Qed.

(** X20. A stored feedback record is never edited but by the approval, which
    sets [approved] to true and nothing else: after any request, each
    stored feedback record is a record that was stored before, or one
    of those with [approved] set to true, or the record that the
    request created. *)
Theorem feedback_only_gets_approved L v env r s s' o d :
  serve L v env r s = (s', o) ->
  d ∈ feedbacks s' ->
  d ∈ feedbacks s
  \/ (exists d0, d0 ∈ feedbacks s /\ d = <["approved" := VBool true]> d0)
  \/ (exists b, r = POST_feedback b /\ o = Responded (json 201 (Document d))).
Proof.
  unfold serve. destruct (route L v env r s) as [s1 st] eqn:Er.
  intros [= <- <-] Hd.
  assert (Hr : (exists id b, r = PUT_feedback_approve id b)
                \/ forall id b, r <> PUT_feedback_approve id b)
    by (destruct r; try (by right); left; eauto).
  destruct Hr as [(id & b & ->)|Hr].
  - destruct (approve_feedbacks _ _ _ _ _ _ _ _ _ Er Hd) as [?|?]; auto.
  - destruct (route_feedbacks L v env r s s1 st d Er Hr Hd)
      as [?|(b & -> & ->)]; [by left|].
    right. right. by exists b.
Qed.

Lemma feedback_only_gets_approved_witness :
  length (feedbacks approved_once.1) = 1%nat
  /\ forall d, d ∈ feedbacks approved_once.1 ->
       d ∈ feedbacks feedback_created.1
       \/ (exists d0, d0 ∈ feedbacks feedback_created.1
                      /\ d = <["approved" := VBool true]> d0)
       \/ (exists b, PUT_feedback_approve Sample.oid1 Sample.feedback_body
                     = POST_feedback b
                     /\ approved_once.2 = Responded (json 201 (Document d))).
Proof.
  split; [vm_compute; reflexivity|]. intros d.
  apply (feedback_only_gets_approved Sample.library index_js
           (Sample.env 2000 Sample.oid2)
           (PUT_feedback_approve Sample.oid1 Sample.feedback_body)
           feedback_created.1 approved_once.1 approved_once.2 d).
  apply surjective_pairing.
Defined.
